(** * WebAuthn modular signer: a shallow embedding of
      [src/plugins/modularPermission/signers/toWebAuthnSigner.ts]

    The signer obtains a passkey assertion through a two-phase exchange
    with a passkey server, and ABI-encodes the outcome for the on-chain
    verifier.  The development has four layers:

    - [Js]: the fragment of JavaScript values, strings and exceptions the
      source manipulates;
    - [Viem]: the hex-string primitives and [encodeAbiParameters] of the
      viem library, restricted to the four parameter types the source uses;
    - [Async]: promises awaited in sequence, as a free monad over the
      external calls ([fetch], [startAuthentication], [getChainId],
      [toWebAuthnPubKey]) and its interpreter recording the calls made;
    - [Signer]: [toWebAuthnSigner] itself, parametrised by the helpers of
      [webAuthnUtils] and by the typed-data functions of viem;
    - [Decode]: reading the fields of an encoded signature back, by their
      position in the tuple;
    - [Demo]: one implementation of the helpers and a scripted passkey
      server, on which the properties are instantiated.

    The properties follow the definitions: facts about the encoding first,
    then about runs of the signer, then the properties of the specification
    themselves, C1 to C10. *)

From Stdlib Require Import ZArith List String Ascii Bool Lia DecimalString.
Import ListNotations.

Local Open Scope string_scope.
Local Open Scope Z_scope.

Set Warnings "-register-all".

(* ===================================================================== *)
(** ** JavaScript values, strings and exceptions *)
(* ===================================================================== *)

Module Js.

(** Thrown values.  [Error m] is [new Error(m)]; the other constructors are
    the error classes of the platform and of the libraries. *)
Inductive exn : Type :=
| Error (message : string)
| TypeError (message : string)
| SignTransactionNotSupportedBySmartAccount
| IntegerOutOfRangeError
| SizeExceedsPaddingSizeError
| AbiEncodingLengthMismatchError
| InvalidAbiEncodingTypeError
| Rejected (origin : string) (reason : string).

(** A computation that returns or throws. *)
Inductive result (A : Type) : Type :=
| Ok (a : A)
| Err (e : exn).
Arguments Ok {A} a.
Arguments Err {A} e.

Definition bind {A B : Type} (r : result A) (f : A -> result B) : result B :=
  match r with
  | Ok a => f a
  | Err e => Err e
  end.

(** Values obtained from [Response.json()]: the JSON data model, with
    [undefined] for absent properties.  Objects list their own properties. *)
Inductive JSValue : Type :=
| JUndefined
| JNull
| JBool (b : bool)
| JNumber (n : Z)
| JString (s : string)
| JArray (items : list JSValue)
| JObject (fields : list (string * JSValue)).

Fixpoint lookup {A : Type} (k : string) (fields : list (string * A)) : option A :=
  match fields with
  | [] => None
  | (k', v) :: rest => if String.eqb k k' then Some v else lookup k rest
  end.

(** [v.k] for a property name that no prototype defines ([challenge],
    [success], ...): a [TypeError] on [null] and [undefined], the own
    property of an object, [undefined] everywhere else. *)
Definition getProp (v : JSValue) (k : string) : result JSValue :=
  match v with
  | JUndefined | JNull => Err (TypeError "Cannot read properties of null or undefined")
  | JObject fields =>
      Ok (match lookup k fields with Some x => x | None => JUndefined end)
  | _ => Ok JUndefined
  end.

(** [!!v] *)
Definition truthy (v : JSValue) : bool :=
  match v with
  | JUndefined | JNull => false
  | JBool b => b
  | JNumber n => negb (n =? 0)
  | JString s => negb (String.eqb s "")
  | JArray _ | JObject _ => true
  end.

(** Strings are sequences of code units below 256, which covers the output
    of [atob] and the literals of the source. *)

(** [s.startsWith(p)] *)
Definition startsWith (s p : string) : bool := String.prefix p s.

(** [s.slice(n)] for [0 <= n] *)
Fixpoint slice (n : nat) (s : string) : string :=
  match n, s with
  | O, _ => s
  | S n', String _ r => slice n' r
  | S _, EmptyString => EmptyString
  end.

(** [s.replace(p, "")] for the two-character pattern ["0x"]: the first
    occurrence is removed, wherever it is. *)
Fixpoint replace_0x (s : string) : string :=
  match s with
  | String "0" (String "x" r) => r
  | String c r => String c (replace_0x r)
  | EmptyString => EmptyString
  end.

Fixpoint zeros (n : nat) : string :=
  match n with
  | O => EmptyString
  | S n' => String "0" (zeros n')
  end.

(** [s.padStart(n, "0")] and [s.padEnd(n, "0")] *)
Definition padStart (s : string) (n : nat) : string :=
  (zeros (n - String.length s) ++ s)%string.
Definition padEnd (s : string) (n : nat) : string :=
  (s ++ zeros (n - String.length s))%string.

(** [Uint8Array.prototype.toString] is [Array.prototype.toString]: the
    elements in decimal, joined by commas. *)
Definition Uint8Array : Type := list Byte.byte.

Definition decimal (b : Byte.byte) : string :=
  NilEmpty.string_of_uint (N.to_uint (Byte.to_N b)).

Definition Uint8Array_toString (a : Uint8Array) : string :=
  String.concat "," (List.map decimal a).

(** [BigInt(v)] on a value that is a bigint already. *)
Definition BigInt (v : Z) : Z := v.

End Js.
Export Js.

Declare Scope result_scope.
Delimit Scope result_scope with result.
Notation "x <- r ;; k" := (Js.bind r (fun x => k))
  (at level 61, r at next level, right associativity) : result_scope.
Notation "' pat <- r ;; k" := (Js.bind r (fun x => match x with pat => k end))
  (at level 61, pat pattern, r at next level, right associativity) : result_scope.

(* ===================================================================== *)
(** ** viem: hex strings and ABI encoding *)
(* ===================================================================== *)

Module Viem.

Local Open Scope result_scope.

(** A [Hex] value is a string, by convention prefixed with [0x]. *)
Definition Hex : Type := string.

Definition maxUint256 : Z := 2 ^ 256 - 1.

Definition hexDigit (d : Z) : ascii :=
  match d with
  | 0 => "0" | 1 => "1" | 2 => "2" | 3 => "3" | 4 => "4" | 5 => "5"
  | 6 => "6" | 7 => "7" | 8 => "8" | 9 => "9" | 10 => "a" | 11 => "b"
  | 12 => "c" | 13 => "d" | 14 => "e" | _ => "f"
  end%char.

(** The [w] low hexadecimal digits of [n], most significant first. *)
Fixpoint toString16 (w : nat) (n : Z) : string :=
  match w with
  | O => EmptyString
  | S w' => (toString16 w' (n / 16) ++ String (hexDigit (n mod 16)) EmptyString)%string
  end.

(** [size(value)]: the byte length of a [0x]-prefixed string, the length of
    anything else. *)
Definition size (value : Hex) : Z :=
  if startsWith value "0x"
  then (Z.of_nat (String.length value) - 2 + 1) / 2
  else Z.of_nat (String.length value).

(** [numberToHex(value, { size: 32 })]: the range check of an unsigned
    32-byte number, then [value.toString(16)] left-padded to 64 digits. *)
Definition numberToHex (value : Z) : result Hex :=
  if (value >? maxUint256) || (value <? 0) then Err IntegerOutOfRangeError
  else Ok ("0x" ++ toString16 64 value)%string.

Inductive Dir : Type := dirLeft | dirRight.

(** [padHex(hex_, { dir, size })] *)
Definition padHex (dir : Dir) (size : Z) (hex_ : Hex) : result Hex :=
  let hex := replace_0x hex_ in
  if Z.of_nat (String.length hex) >? size * 2 then Err SizeExceedsPaddingSizeError
  else
    Ok ("0x" ++ match dir with
                | dirRight => padEnd hex (Z.to_nat (size * 2))
                | dirLeft => padStart hex (Z.to_nat (size * 2))
                end)%string.

(** [concat(values)] on hex strings: [joined] is the [reduce] that appends
    each value without its prefix. *)
Definition joined (values : list Hex) : string :=
  fold_left (fun acc x => acc ++ replace_0x x)%string values EmptyString.

Definition concat (values : list Hex) : Hex := ("0x" ++ joined values)%string.

Definition boolToHex (value : bool) : Hex := if value then "0x1" else "0x0".

(** [TextEncoder.encode] on code units below 256: one byte below 128, two
    bytes from 128 on. *)
Definition utf8 (c : ascii) : list Z :=
  let n := Z.of_N (N_of_ascii c) in
  if n <? 128 then [n]
  else [Z.lor 192 (Z.shiftr n 6); Z.lor 128 (Z.land n 63)].

Fixpoint encode (s : string) : list Z :=
  match s with
  | EmptyString => []
  | String c r => (utf8 c ++ encode r)%list
  end.

(** [bytesToHex] and [stringToHex] *)
Definition bytesToHex (bytes : list Z) : Hex :=
  ("0x" ++ fold_right (fun b acc => toString16 2 b ++ acc) EmptyString bytes)%string.

Definition stringToHex (value : string) : Hex := bytesToHex (encode value).

(** [slice(value, start, end)] on a hex string, offsets in bytes *)
Definition sliceHex (value : Hex) (start stop : nat) : Hex :=
  ("0x" ++ String.substring (start * 2) (stop * 2 - start * 2) (replace_0x value))%string.

(** *** [encodeAbiParameters] *)

Inductive AbiType : Type := bytes | string_ | uint256 | bool_.

Record AbiParameter : Type := { name : string; type : AbiType }.

Inductive AbiValue : Type :=
| VHex (h : Hex)
| VString (s : string)
| VBigInt (n : Z)
| VBoolean (b : bool).

Record PreparedParam : Type := { dynamic : bool; encoded : Hex }.

Definition encodeBytes (value : Hex) : result PreparedParam :=
  let bytesSize := size value in
  value_ <- (if negb (Z.rem bytesSize 32 =? 0)
             then padHex dirRight
                    (((Z.of_nat (String.length value) - 2) + 63) / 64 * 32) value
             else Ok value) ;;
  len <- numberToHex bytesSize ;;
  len' <- padHex dirLeft 32 len ;;
  Ok {| dynamic := true; encoded := concat [len'; value_] |}.

Definition encodeBool (value : bool) : result PreparedParam :=
  e <- padHex dirLeft 32 (boolToHex value) ;;
  Ok {| dynamic := false; encoded := e |}.

Definition encodeNumber (value : Z) : result PreparedParam :=
  e <- numberToHex value ;;
  Ok {| dynamic := false; encoded := e |}.

Fixpoint mapM {A B : Type} (f : A -> result B) (l : list A) : result (list B) :=
  match l with
  | [] => Ok []
  | a :: rest => b <- f a ;; bs <- mapM f rest ;; Ok (b :: bs)
  end.

Definition encodeString (value : string) : result PreparedParam :=
  let hexValue := stringToHex value in
  let partsLength := Z.to_nat ((size hexValue + 31) / 32) in
  parts <- mapM (fun i => padHex dirRight 32 (sliceHex hexValue (i * 32) ((i + 1) * 32)))
                (seq 0 partsLength) ;;
  len <- numberToHex (size hexValue) ;;
  len' <- padHex dirLeft 32 len ;;
  Ok {| dynamic := true; encoded := concat (len' :: parts) |}.

Definition prepareParam (param : AbiParameter) (value : AbiValue) : result PreparedParam :=
  match type param, value with
  | bool_, VBoolean b => encodeBool b
  | uint256, VBigInt n => encodeNumber n
  | bytes, VHex h => encodeBytes h
  | string_, VString s => encodeString s
  | _, _ => Err InvalidAbiEncodingTypeError
  end.

Fixpoint prepareParams (params : list AbiParameter) (values : list AbiValue)
  : result (list PreparedParam) :=
  match params, values with
  | p :: ps, v :: vs =>
      x <- prepareParam p v ;; xs <- prepareParams ps vs ;; Ok (x :: xs)
  | _, _ => Ok []
  end.

(** The first loop of [encodeParams]: the size of the static part. *)
Definition staticSizeOf (preparedParams : list PreparedParam) : Z :=
  fold_left (fun staticSize p =>
               if dynamic p then staticSize + 32 else staticSize + size (encoded p))
            preparedParams 0.

(** The second loop: static parts (an offset for a dynamic parameter) and
    dynamic parts, [dynamicSize] growing along the way. *)
Fixpoint splitParams (staticSize dynamicSize : Z) (preparedParams : list PreparedParam)
  : result (list Hex * list Hex) :=
  match preparedParams with
  | [] => Ok ([], [])
  | p :: rest =>
      if dynamic p then
        offset <- numberToHex (staticSize + dynamicSize) ;;
        '(staticParams, dynamicParams) <-
           splitParams staticSize (dynamicSize + size (encoded p)) rest ;;
        Ok (offset :: staticParams, encoded p :: dynamicParams)
      else
        '(staticParams, dynamicParams) <- splitParams staticSize dynamicSize rest ;;
        Ok (encoded p :: staticParams, dynamicParams)
  end.

Definition encodeParams (preparedParams : list PreparedParam) : result Hex :=
  '(staticParams, dynamicParams) <-
     splitParams (staticSizeOf preparedParams) 0 preparedParams ;;
  Ok (concat (staticParams ++ dynamicParams)%list).

Definition encodeAbiParameters (params : list AbiParameter) (values : list AbiValue)
  : result Hex :=
  if negb (Nat.eqb (List.length params) (List.length values))
  then Err AbiEncodingLengthMismatchError
  else
    preparedParams <- prepareParams params values ;;
    encodeParams preparedParams.

End Viem.
Export Viem.

(* ===================================================================== *)
(** ** Awaited external calls *)
(* ===================================================================== *)

Module Async.

(** [WebAuthnKey], declared in the source file. *)
Record WebAuthnKey : Type := { pubX : Z; pubY : Z }.

(** Modelled from the spec: [WebAuthnMode] is declared in
    [toWebAuthnPubKey], which is absent; it is the flag distinguishing
    [register a new credential] from [use an existing one]. *)
Inductive WebAuthnMode : Type := Register | Login.

(** A viem client: its key and the chain it was configured with, if any. *)
Record Client : Type := { key : string; chain : option Z }.

(** The second argument of [fetch].  The body is kept as the value handed
    to [JSON.stringify]. *)
Inductive Body : Type := JSON_stringify (v : JSValue).

Record RequestInit : Type := {
  method : string;
  headers : list (string * string);
  body : Body;
  credentials : string
}.

(** What [fetch] resolves to: the status line and the outcome of reading
    the body with [json()]. *)
Record Response : Type := {
  ok : bool;
  status : Z;
  json : result JSValue
}.

Record PublicKeyCredentialRequestOptionsJSON : Type := {
  challenge : JSValue;
  allowCredentials : JSValue;
  userVerification : string
}.

Record AuthenticatorAssertionResponseJSON : Type := {
  clientDataJSON : string;
  authenticatorData : string;
  signature : string
}.

Record AuthenticationResponseJSON : Type := {
  id : string;
  rawId : string;
  response : AuthenticatorAssertionResponseJSON;
  credType : string
}.

(** The object [JSON.stringify] sees for a credential. *)
Definition toJSON (cred : AuthenticationResponseJSON) : JSValue :=
  JObject [ ("id", JString (id cred));
            ("rawId", JString (rawId cred));
            ("response",
              JObject [ ("clientDataJSON", JString (clientDataJSON (response cred)));
                        ("authenticatorData", JString (authenticatorData (response cred)));
                        ("signature", JString (signature (response cred))) ]);
            ("type", JString (credType cred)) ].

(** The asynchronous calls of the source, indexed by what their promise
    resolves to. *)
Inductive event : Type -> Type :=
| toWebAuthnPubKey (passkeyName passkeyServerUrl : string) (mode : WebAuthnMode)
    : event (option WebAuthnKey)
| getChainId (client : Client) : event Z
| fetch (url : string) (init : RequestInit) : event Response
| startAuthentication (options : PublicKeyCredentialRequestOptionsJSON)
    : event AuthenticationResponseJSON.

(** An [async] function body: it returns, throws, or awaits a call and
    goes on with what the promise resolved to.  A rejected promise makes
    the [await] throw. *)
Inductive prog (A : Type) : Type :=
| Return (a : A)
| Throw (e : exn)
| Await {X : Type} (ev : event X) (k : X -> prog A).
Arguments Return {A} a.
Arguments Throw {A} e.
Arguments Await {A X} ev k.

Fixpoint pbind {A B : Type} (p : prog A) (f : A -> prog B) : prog B :=
  match p with
  | Return a => f a
  | Throw e => Throw e
  | Await ev k => Await ev (fun x => pbind (k x) f)
  end.

Definition await {X : Type} (ev : event X) : prog X := Await ev Return.

Definition lift {A : Type} (r : result A) : prog A :=
  match r with
  | Ok a => Return a
  | Err e => Throw e
  end.

(** One entry of the log of a run: the call and how its promise settled. *)
Inductive call : Type :=
| Call {X : Type} (ev : event X) (settled : result X).

Section Run.

(** The environment: a state and the way it settles each call. *)
Variable World : Type.
Variable respond : forall X : Type, event X -> World -> result X * World.

Fixpoint run {A : Type} (p : prog A) (w : World) : result A * list call * World :=
  match p with
  | Return a => (Ok a, [], w)
  | Throw e => (Err e, [], w)
  | Await ev k =>
      let (r, w1) := respond _ ev w in
      match r with
      | Err e => (Err e, [Call ev r], w1)
      | Ok x => let '(out, log, w2) := run (k x) w1 in (out, Call ev r :: log, w2)
      end
  end.

End Run.

(** Observations on a log. *)
Definition isFetch (c : call) : bool :=
  match c with
  | Call (fetch _ _) _ => true
  | _ => false
  end.

Definition isStartAuthentication (c : call) : bool :=
  match c with
  | Call (startAuthentication _) _ => true
  | _ => false
  end.

(** How the chain id lookups of a log settled, in order. *)
Definition chainIdOfCall (c : call) : list (result Z) :=
  match c with
  | Call ev settled =>
      match ev in event T return result T -> list (result Z) with
      | getChainId _ => fun settled => [settled]
      | _ => fun _ => []
      end settled
  end.

Definition chainIdsOf (log : list call) : list (result Z) := flat_map chainIdOfCall log.

(** How the key provisioning calls of a log settled, in order. *)
Definition provisionedOfCall (c : call) : list (result (option WebAuthnKey)) :=
  match c with
  | Call ev settled =>
      match ev in event T return result T -> list (result (option WebAuthnKey)) with
      | toWebAuthnPubKey _ _ _ => fun settled => [settled]
      | _ => fun _ => []
      end settled
  end.

Definition provisionedOf (log : list call) : list (result (option WebAuthnKey)) :=
  flat_map provisionedOfCall log.

(** The values handed to [JSON.stringify] for the bodies of the requests
    of a log, in order. *)
Definition requestBody (c : call) : list JSValue :=
  match c with
  | Call (fetch _ init) _ => match body init with JSON_stringify v => [v] end
  | _ => []
  end.

Definition requestBodies (log : list call) : list JSValue := flat_map requestBody log.

(** The assertion the authenticator returned, if the log has one. *)
Definition assertionOfCall (c : call) : option AuthenticationResponseJSON :=
  match c with
  | Call ev settled =>
      match ev in event T return result T -> option AuthenticationResponseJSON with
      | startAuthentication _ =>
          fun settled => match settled with Ok cred => Some cred | Err _ => None end
      | _ => fun _ => None
      end settled
  end.

Fixpoint assertionOf (log : list call) : option AuthenticationResponseJSON :=
  match log with
  | [] => None
  | c :: rest =>
      match assertionOfCall c with
      | Some cred => Some cred
      | None => assertionOf rest
      end
  end.

(** The calls made after the authenticator was invoked. *)
Fixpoint afterAssertion (log : list call) : list call :=
  match log with
  | [] => []
  | c :: rest => if isStartAuthentication c then rest else afterAssertion rest
  end.

(** What the server answered to the request that follows the assertion:
    the parsed body of the verification response. *)
Definition jsonOfCall (c : call) : option JSValue :=
  match c with
  | Call ev settled =>
      match ev in event T return result T -> option JSValue with
      | fetch _ _ =>
          fun settled =>
            match settled with
            | Ok resp => match json resp with Ok v => Some v | Err _ => None end
            | Err _ => None
            end
      | _ => fun _ => None
      end settled
  end.

Definition verificationOf (log : list call) : option JSValue :=
  match afterAssertion log with
  | c :: _ => jsonOfCall c
  | [] => None
  end.

End Async.
Export Async.

Declare Scope prog_scope.
Delimit Scope prog_scope with prog.
Notation "x <- p ;; k" := (Async.pbind p (fun x => k))
  (at level 61, p at next level, right associativity) : prog_scope.

(* ===================================================================== *)
(** ** The signer *)
(* ===================================================================== *)

Module Signer.

(** [src/plugins/permission/constants.ts] *)
Definition WEBAUTHN_SIGNER_CONTRACT : string :=
  "0x8AA55d4BfAE101609078681A69B5bc3181516612".

(** What [findQuoteIndices] and [parseAndNormalizeSig] return, as the
    source destructures them. *)
Record QuoteIndices : Type := { beforeType : Z; beforeChallenge : Z }.
Record Signature : Type := { r : Z; s : Z }.

(** The helpers imported from [webAuthnUtils], which is not part of the
    sources at hand: the signer is verified for every implementation of
    this interface. *)
Class WebAuthnUtils : Type := {
  b64ToBytes : JSValue -> result Uint8Array;
  uint8ArrayToHexString : Uint8Array -> Hex;
  findQuoteIndices : string -> result QuoteIndices;
  parseAndNormalizeSig : Hex -> result Signature;
  isRIP7212SupportedNetwork : Z -> bool
}.

(** EIP-712 typed data as viem presents it. *)
Definition TypedDataParameter : Type := (string * string)%type.
Definition TypedData : Type := list (string * list TypedDataParameter).

Record TypedDataDefinition : Type := {
  domain : JSValue;
  types : TypedData;
  primaryType : string;
  message : JSValue
}.

Record ValidateTypedDataParameters : Type := {
  v_domain : JSValue;
  v_message : JSValue;
  v_primaryType : string;
  v_types : TypedData
}.

(** The platform and library functions the signer delegates to. *)
Class Collaborators : Type := {
  atob : string -> result string;
  getTypesForEIP712Domain : JSValue -> list TypedDataParameter;
  validateTypedData : ValidateTypedDataParameters -> result unit;
  hashTypedData : TypedDataDefinition -> result Hex
}.

(** [{ ...a, ...b }]: the keys of [a] in order, with the value [b] gives
    them if it has them, then the keys only [b] has. *)
Definition spread {A : Type} (a b : list (string * A)) : list (string * A) :=
  (List.map (fun kv => match lookup (fst kv) b with
                       | Some v => (fst kv, v)
                       | None => kv
                       end) a
   ++ List.filter (fun kv => match lookup (fst kv) a with
                             | Some _ => false
                             | None => true
                             end) b)%list.

(** [SignableMessage], with the shapes the source tells apart. *)
Inductive Raw : Type :=
| RawHex (raw : string)
| RawByteArray (raw : Uint8Array).

Inductive SignableMessage : Type :=
| MString (message : string)
| MRaw (raw : Raw)
| MObject (fields : list (string * JSValue)).

Module Params.
(** [WebAuthnModularSignerParams]; [None] is an omitted property. *)
Record t : Type := {
  signerContractAddress : option string;
  pubKey : option WebAuthnKey;
  passkeyServerUrl : string;
  passkeyName : string;
  mode : option WebAuthnMode
}.
End Params.

Record LocalAccount : Type := {
  address : string;
  signMessage : SignableMessage -> prog Hex;
  signTransaction : JSValue -> JSValue -> prog Hex;
  signTypedData : TypedDataDefinition -> prog Hex
}.

Record ModularSigner : Type := {
  account : LocalAccount;
  signerContractAddress : string;
  getSignerData : unit -> result Hex;
  getDummySignature : unit -> result Hex
}.

(** The parameter list of an [EncodedSignature], as both call sites of
    [encodeAbiParameters] write it. *)
Definition signatureParams : list AbiParameter :=
  [ {| name := "authenticatorData"; type := bytes |};
    {| name := "clientDataJSON"; type := string_ |};
    {| name := "challengeLocation"; type := uint256 |};
    {| name := "responseTypeLocation"; type := uint256 |};
    {| name := "r"; type := uint256 |};
    {| name := "s"; type := uint256 |};
    {| name := "usePrecompiled"; type := bool_ |} ].

(** A string literal of the source written with apostrophes where the
    source has double quotes. *)
Fixpoint quoted (lit : string) : string :=
  match lit with
  | EmptyString => EmptyString
  | String c rest => String (if Ascii.eqb c "'" then "034" else c)%char (quoted rest)
  end.

Section WithHelpers.

Context {utils : WebAuthnUtils} {ext : Collaborators}.

Local Open Scope result_scope.

(** Lines 125-163 of [signMessageUsingWebAuthn]: from the credential and
    the verification result to the encoded signature. *)
Definition encodeVerified (chainId : Z) (cred : AuthenticationResponseJSON)
    (verifyResult : JSValue) : result Hex :=
  (* get authenticator data *)
  authenticatorData <- getProp verifyResult "authenticatorData" ;;
  authenticatorDataBytes <- b64ToBytes authenticatorData ;;
  let authenticatorDataHex := uint8ArrayToHexString authenticatorDataBytes in
  (* get client data JSON *)
  clientDataJSON <- atob (clientDataJSON (response cred)) ;;
  (* get challenge and response type location *)
  q <- findQuoteIndices clientDataJSON ;;
  (* get signature r,s *)
  signature <- getProp verifyResult "signature" ;;
  signatureBytes <- b64ToBytes signature ;;
  let signatureHex := uint8ArrayToHexString signatureBytes in
  rs <- parseAndNormalizeSig signatureHex ;;
  (* encode signature *)
  encodeAbiParameters signatureParams
    [ VHex authenticatorDataHex;
      VString clientDataJSON;
      VBigInt (beforeChallenge q);
      VBigInt (beforeType q);
      VBigInt (BigInt (r rs));
      VBigInt (BigInt (s rs));
      VBoolean (isRIP7212SupportedNetwork chainId) ].

(** The message branch at the head of [signMessageUsingWebAuthn]. *)
Definition messageContentOf (message : SignableMessage) : result string :=
  match message with
  | MString m => Ok m
  | MRaw (RawHex raw) => Ok raw
  | MRaw (RawByteArray raw) => Ok (Uint8Array_toString raw)
  | MObject _ => Err (Error "Unsupported message format")
  end.

(** remove 0x prefix if present *)
Definition formatMessage (messageContent : string) : string :=
  if startsWith messageContent "0x" then slice 2 messageContent else messageContent.

Definition postJSON (v : JSValue) : RequestInit :=
  {| method := "POST";
     headers := [("Content-Type", "application/json")];
     body := JSON_stringify v;
     credentials := "include" |}.

Local Open Scope prog_scope.

(** [signMessageUsingWebAuthn], a closure over [passkeyServerUrl] and
    [chainId]. *)
Definition signMessageUsingWebAuthn (passkeyServerUrl : string) (chainId : Z)
    (message : SignableMessage) : prog Hex :=
  messageContent <- lift (messageContentOf message) ;;
  let formattedMessage := formatMessage messageContent in
  (* initiate signing *)
  signInitiateResponse <-
    await (fetch (passkeyServerUrl ++ "/sign-initiate")
                 (postJSON (JObject [("data", JString formattedMessage)]))) ;;
  signInitiateResult <- lift (json signInitiateResponse) ;;
  (* prepare assertion options *)
  challenge_ <- lift (getProp signInitiateResult "challenge") ;;
  allowCredentials_ <- lift (getProp signInitiateResult "allowCredentials") ;;
  let assertionOptions :=
    {| challenge := challenge_;
       allowCredentials := allowCredentials_;
       userVerification := "required" |} in
  (* start authentication (signing) *)
  cred <- await (startAuthentication assertionOptions) ;;
  (* verify signature from server *)
  verifyResponse <-
    await (fetch (passkeyServerUrl ++ "/sign-verify")
                 (postJSON (JObject [("cred", toJSON cred)]))) ;;
  verifyResult <- lift (json verifyResponse) ;;
  success <- lift (getProp verifyResult "success") ;;
  if negb (truthy success) then Throw (Error "Signature not verified")
  else lift (encodeVerified chainId cred verifyResult).

(** The [signTypedData] method of the account: validation, hashing, then
    the signing pipeline on the hash. *)
Definition signTypedDataUsingWebAuthn (passkeyServerUrl : string) (chainId : Z)
    (typedData : TypedDataDefinition) : prog Hex :=
  let types_ :=
    spread [("EIP712Domain", getTypesForEIP712Domain (domain typedData))]
           (types typedData) in
  _ <- lift (validateTypedData
               {| v_domain := domain typedData;
                  v_message := message typedData;
                  v_primaryType := primaryType typedData;
                  v_types := types_ |}) ;;
  hash <- lift (hashTypedData typedData) ;;
  signMessageUsingWebAuthn passkeyServerUrl chainId (MString hash).

(** The [getSignerData] method, a closure over the variable [pubKey],
    whose type still allows [undefined]. *)
Definition getSignerDataOf (pubKey : option WebAuthnKey) : result Hex :=
  match pubKey with
  | None => Err (Error "WebAuthn public key not found")
  | Some pubKey =>
      encodeAbiParameters
        [ {| name := "pubX"; type := uint256 |};
          {| name := "pubY"; type := uint256 |} ]
        [ VBigInt (pubX pubKey); VBigInt (pubY pubKey) ]
  end.

(** The [getDummySignature] method, a closure over [chainId]. *)
Definition getDummySignatureOf (chainId : Z) : result Hex :=
  encodeAbiParameters signatureParams
    [ VHex "0xffffffffffffffffffffffffffffffffffffffffffffffffffffffffffffffffffffffffff";
      VString (quoted "{'type':'webauthn.get','challenge':'aaaaaaaaaaaaaaaaaaaaaaaaaaaaaaaaaaaaaaaaaaa','origin':'https://example.com'}");
      VBigInt maxUint256;
      VBigInt maxUint256;
      VBigInt 11111111111111111111111111111111111111111111111111111111111111111111111111111;
      VBigInt 22222222222222222222222222222222222222222222222222222222222222222222222222222;
      VBoolean (isRIP7212SupportedNetwork chainId) ].

(** [toWebAuthnSigner]: the key, the chain id, then the signer object.
    [toAccount] only checks the address, which is the zero address here. *)
Definition toWebAuthnSigner (client : Client) (params : Params.t) : prog ModularSigner :=
  let signerContractAddress_ :=
    match Params.signerContractAddress params with
    | Some a => a
    | None => WEBAUTHN_SIGNER_CONTRACT
    end in
  let mode_ :=
    match Params.mode params with
    | Some m => m
    | None => Register
    end in
  pubKey_ <- match Params.pubKey params with
             | Some k => Return (Some k)
             | None => await (toWebAuthnPubKey (Params.passkeyName params)
                                               (Params.passkeyServerUrl params) mode_)
             end ;;
  match pubKey_ with
  | None => Throw (Error "WebAuthn public key not found")
  | Some _ =>
      chainId <- await (getChainId client) ;;
      Return
        {| account :=
             {| (* note that this address will be overwritten by actual address *)
                address := "0x0000000000000000000000000000000000000000";
                signMessage := fun message =>
                  signMessageUsingWebAuthn (Params.passkeyServerUrl params) chainId message;
                signTransaction := fun _ _ =>
                  Throw SignTransactionNotSupportedBySmartAccount;
                signTypedData := fun typedData =>
                  signTypedDataUsingWebAuthn (Params.passkeyServerUrl params) chainId
                                             typedData |};
           signerContractAddress := signerContractAddress_;
           getSignerData := fun _ => getSignerDataOf pubKey_;
           getDummySignature := fun _ => getDummySignatureOf chainId |}
  end.

End WithHelpers.

End Signer.
Export Signer.

(* ===================================================================== *)
(** ** Reading an encoded signature back *)
(* ===================================================================== *)

Module Decode.

(** The value of a lowercase hexadecimal digit, from its character code. *)
Definition hexValue (c : ascii) : option Z :=
  let code := Z.of_N (N_of_ascii c) in
  if (48 <=? code) && (code <=? 57) then Some (code - 48)
  else if (97 <=? code) && (code <=? 102) then Some (code - 87)
  else None.

(** The number a string of lowercase hexadecimal digits denotes. *)
Fixpoint hexToBigInt (acc : Z) (digits : string) : option Z :=
  match digits with
  | EmptyString => Some acc
  | String c rest =>
      match hexValue c with
      | Some d => hexToBigInt (acc * 16 + d) rest
      | None => None
      end
  end.

(** The [i]-th 32-byte word after the [0x] prefix. *)
Definition word (i : nat) (encoded : Hex) : string :=
  String.substring (2 + 64 * i) 64 encoded.

(** A 32-byte word as [encodeAbiParameters] lays it out. *)
Definition isWord (h : Hex) : Prop :=
  exists digits, h = ("0x" ++ digits)%string /\ String.length digits = 64%nat.

Definition uintAt (i : nat) (encoded : Hex) : option Z :=
  hexToBigInt 0 (word i encoded).

Definition boolAt (i : nat) (encoded : Hex) : option bool :=
  match uintAt i encoded with
  | Some 0 => Some false
  | Some 1 => Some true
  | _ => None
  end.

(** The static fields of an [EncodedSignature], by their position in the
    tuple the verifier contract decodes. *)
Definition challengeLocation (sig : Hex) : option Z := uintAt 2 sig.
Definition responseTypeLocation (sig : Hex) : option Z := uintAt 3 sig.
Definition rOf (sig : Hex) : option Z := uintAt 4 sig.
Definition sOf (sig : Hex) : option Z := uintAt 5 sig.
Definition usePrecompiled (sig : Hex) : option bool := boolAt 6 sig.

(** A dynamic field: the head word holds the byte offset of its tail, the
    tail starts with the byte length, the bytes follow.  The result is the
    hexadecimal text of those bytes. *)
Definition dynamicAt (i : nat) (encoded : Hex) : option string :=
  match uintAt i encoded with
  | None => None
  | Some offset =>
      let start := (2 + 2 * Z.to_nat offset)%nat in
      match hexToBigInt 0 (String.substring start 64 encoded) with
      | None => None
      | Some len => Some (String.substring (start + 64) (2 * Z.to_nat len) encoded)
      end
  end.

Definition authenticatorDataOf (sig : Hex) : option string := dynamicAt 0 sig.
Definition clientDataJSONOf (sig : Hex) : option string := dynamicAt 1 sig.

(** Whether a string consists of hexadecimal digits only, of either case. *)
Definition isHexChar (c : ascii) : bool :=
  let code := Z.of_N (N_of_ascii c) in
  match hexValue c with
  | Some _ => true
  | None => (65 <=? code) && (code <=? 70)
  end.

Fixpoint isHexDigits (digits : string) : bool :=
  match digits with
  | EmptyString => true
  | String c rest => isHexChar c && isHexDigits rest
  end.

End Decode.
Export Decode.

(* ===================================================================== *)
(** ** A reference environment *)
(* ===================================================================== *)

(** One implementation of the helpers and one scripted passkey server, on
    which the signer is run on concrete data. *)
Module Demo.

Local Open Scope result_scope.

Definition base64Value (c : ascii) : option Z :=
  let n := Z.of_N (N_of_ascii c) in
  if (65 <=? n) && (n <=? 90) then Some (n - 65)
  else if (97 <=? n) && (n <=? 122) then Some (n - 71)
  else if (48 <=? n) && (n <=? 57) then Some (n + 4)
  else if (n =? 43) || (n =? 45) then Some 62
  else if (n =? 47) || (n =? 95) then Some 63
  else None.

(** The sextets of a base64 text, up to its padding. *)
Fixpoint sextets (text : string) : result (list Z) :=
  match text with
  | EmptyString => Ok []
  | String c rest =>
      if Ascii.eqb c "=" then Ok []
      else match base64Value c with
           | None => Err (Rejected "base64" "invalid character")
           | Some v => vs <- sextets rest ;; Ok (v :: vs)
           end
  end.

Fixpoint octets (vs : list Z) : list Z :=
  match vs with
  | a :: b :: c :: d :: rest =>
      (a * 4 + b / 16) :: ((b mod 16) * 16 + c / 4) :: ((c mod 4) * 64 + d) :: octets rest
  | [a; b; c] => [a * 4 + b / 16; (b mod 16) * 16 + c / 4]
  | [a; b] => [a * 4 + b / 16]
  | _ => []
  end.

Definition byteOf (n : Z) : Byte.byte :=
  match Byte.of_N (Z.to_N n) with
  | Some b => b
  | None => Byte.x00
  end.

Definition decodeBase64 (text : string) : result (list Z) :=
  vs <- sextets text ;; Ok (octets vs).

(** Modelled from the spec: [webAuthnUtils] is absent.  Section 4.6 has
    [authenticatorData] and the signature decoded from base64 to bytes. *)
Definition demo_b64ToBytes (v : JSValue) : result Uint8Array :=
  match v with
  | JString text => bs <- decodeBase64 text ;; Ok (List.map byteOf bs)
  | _ => Err (TypeError "base64 text expected")
  end.

Definition demo_atob (text : string) : result string :=
  bs <- decodeBase64 text ;;
  Ok (fold_right (fun b acc => String (ascii_of_N (Z.to_N b)) acc) EmptyString bs).

Definition demo_uint8ArrayToHexString (a : Uint8Array) : Hex :=
  bytesToHex (List.map (fun b => Z.of_N (Byte.to_N b)) a).

(** Modelled from the spec: section 4.2, the offsets just past the
    markers [type] and [challenge] (each written with its quotes, a colon
    and the opening quote of the value), [FieldNotFound] when one is
    absent. *)
Definition offsetAfter (marker text : string) : result Z :=
  match String.index 0 marker text with
  | Some i => Ok (Z.of_nat (i + String.length marker))
  | None => Err (Rejected "ClientDataLocator" "FieldNotFound")
  end.

Definition demo_findQuoteIndices (clientDataJSON : string) : result QuoteIndices :=
  t <- offsetAfter (quoted "'type':'") clientDataJSON ;;
  c <- offsetAfter (quoted "'challenge':'") clientDataJSON ;;
  Ok {| beforeType := t; beforeChallenge := c |}.

(** Modelled from the spec: section 4.1, two fixed-width components of 32
    bytes each, [MalformedSignature] otherwise; [s] is left as it comes. *)
Definition demo_parseAndNormalizeSig (signatureHex : Hex) : result Signature :=
  let digits := replace_0x signatureHex in
  if negb (Nat.eqb (String.length digits) 128)
  then Err (Rejected "SignatureNormalizer" "MalformedSignature")
  else
    match hexToBigInt 0 (String.substring 0 64 digits),
          hexToBigInt 0 (String.substring 64 64 digits) with
    | Some r, Some s => Ok {| r := r; s := s |}
    | _, _ => Err (Rejected "SignatureNormalizer" "MalformedSignature")
    end.

(** Modelled from the spec: section 4.3, a lookup table keyed by chain id,
    unknown chains defaulting to [false].  The table is the reference
    environment's own. *)
Definition RIP7212_SUPPORTED_NETWORKS : list Z := [80001].

Definition demo_isRIP7212SupportedNetwork (chainId : Z) : bool :=
  existsb (Z.eqb chainId) RIP7212_SUPPORTED_NETWORKS.

#[export] Instance utils : WebAuthnUtils := {|
  b64ToBytes := demo_b64ToBytes;
  uint8ArrayToHexString := demo_uint8ArrayToHexString;
  findQuoteIndices := demo_findQuoteIndices;
  parseAndNormalizeSig := demo_parseAndNormalizeSig;
  isRIP7212SupportedNetwork := demo_isRIP7212SupportedNetwork
|}.

(** A stand-in for the typed-data library: a domain has to be an object
    and the primary type has to be declared. *)
Definition demo_validateTypedData (p : ValidateTypedDataParameters) : result unit :=
  match v_domain p, lookup (v_primaryType p) (v_types p) with
  | JObject _, Some _ => Ok tt
  | _, _ => Err (Rejected "validateTypedData" "InvalidTypedData")
  end.

Definition demo_hashTypedData (typedData : TypedDataDefinition) : result Hex :=
  Ok ("0x" ++ toString16 64 (Z.of_nat (String.length (primaryType typedData))))%string.

#[export] Instance ext : Collaborators := {|
  atob := demo_atob;
  getTypesForEIP712Domain := fun _ => [("name", "string"); ("chainId", "uint256")];
  validateTypedData := demo_validateTypedData;
  hashTypedData := demo_hashTypedData
|}.

(** The scripted environment: how each external call settles.  The chain
    the RPC endpoint reports can change from one call to the next. *)
Record Script : Type := {
  rpcChainId : list (result Z);
  provisioned : result (option WebAuthnKey);
  signInitiate : result Response;
  assertion : result AuthenticationResponseJSON;
  signVerify : result Response
}.

Definition isCredBody (b : Body) : bool :=
  match b with
  | JSON_stringify (JObject (("cred", _) :: _)) => true
  | _ => false
  end.

Definition respond (X : Type) (ev : event X) (w : Script) : result X * Script :=
  match ev in event T return result T * Script with
  | toWebAuthnPubKey _ _ _ => (provisioned w, w)
  | getChainId _ =>
      match rpcChainId w with
      | [] => (Err (Rejected "rpc" "unreachable"), w)
      | c :: later =>
          (c, {| rpcChainId := later; provisioned := provisioned w;
                 signInitiate := signInitiate w; assertion := assertion w;
                 signVerify := signVerify w |})
      end
  | fetch _ init => (if isCredBody (body init) then signVerify w else signInitiate w, w)
  | startAuthentication _ => (assertion w, w)
  end.

Definition demoCred : AuthenticationResponseJSON :=
  {| id := "credential-1";
     rawId := "credential-1";
     response :=
       {| clientDataJSON :=
            "eyJ0eXBlIjoid2ViYXV0aG4uZ2V0IiwiY2hhbGxlbmdlIjoiU0dWc2JHOCIsIm9yaWdpbiI6Imh0dHBzOi8vZXhhbXBsZS5jb20ifQ==";
          authenticatorData := "AQIDBAUGBwgJCgsMDQ4PEBESExQVFhcYGRobHB0eHyAhIiMkJQ==";
          signature :=
            "EjRWeJCrze8SNFZ4kKvN7xI0VniQq83vEjRWeJCrze8P7cuph2VDIf7cuph2VDIf7cuph2VDIf7cuph2VDIf7Q==" |};
     credType := "public-key" |}.

Definition challengeBody : JSValue :=
  JObject [ ("challenge", JString "SGVsbG8");
            ("allowCredentials", JArray [JObject [("id", JString "credential-1")]]) ].

Definition verifiedBody (success : bool) : JSValue :=
  JObject [ ("success", JBool success);
            ("authenticatorData", JString "AQIDBAUGBwgJCgsMDQ4PEBESExQVFhcYGRobHB0eHyAhIiMkJQ==");
            ("signature",
              JString "EjRWeJCrze8SNFZ4kKvN7xI0VniQq83vEjRWeJCrze8P7cuph2VDIf7cuph2VDIf7cuph2VDIf7cuph2VDIf7Q==") ].

Definition demoKey : WebAuthnKey := {| pubX := 7; pubY := 11 |}.

(** Everything goes well, on a chain without the precompile. *)
Definition happy : Script :=
  {| rpcChainId := [Ok 1];
     provisioned := Ok (Some demoKey);
     signInitiate := Ok {| ok := true; status := 200; json := Ok challengeBody |};
     assertion := Ok demoCred;
     signVerify := Ok {| ok := true; status := 200; json := Ok (verifiedBody true) |} |}.

(** The server does not verify the assertion. *)
Definition refused : Script :=
  {| rpcChainId := [Ok 1];
     provisioned := Ok (Some demoKey);
     signInitiate := Ok {| ok := true; status := 200; json := Ok challengeBody |};
     assertion := Ok demoCred;
     signVerify := Ok {| ok := true; status := 200; json := Ok (verifiedBody false) |} |}.

(** [sign-initiate] answers with status 500 and a JSON body. *)
Definition initiateFails : Script :=
  {| rpcChainId := [Ok 1];
     provisioned := Ok (Some demoKey);
     signInitiate :=
       Ok {| ok := false; status := 500;
             json := Ok (JObject [("error", JString "internal error")]) |};
     assertion := Ok demoCred;
     signVerify := Ok {| ok := true; status := 200; json := Ok (verifiedBody true) |} |}.

(** The network is down. *)
Definition offline : Script :=
  {| rpcChainId := [Ok 1];
     provisioned := Ok (Some demoKey);
     signInitiate := Err (TypeError "Failed to fetch");
     assertion := Ok demoCred;
     signVerify := Err (TypeError "Failed to fetch") |}.

Definition demoClient : Client := {| key := "public"; chain := None |}.

Definition url : string := "https://passkeys.example".

Definition demoParams : Params.t :=
  {| Params.signerContractAddress := None;
     Params.pubKey := None;
     Params.passkeyServerUrl := "https://passkeys.example";
     Params.passkeyName := "demo";
     Params.mode := None |}.

(** The caller supplies the key. *)
Definition suppliedKeyParams : Params.t :=
  {| Params.signerContractAddress := None;
     Params.pubKey := Some demoKey;
     Params.passkeyServerUrl := "https://passkeys.example";
     Params.passkeyName := "demo";
     Params.mode := None |}.

(** The caller supplies a key whose first coordinate is negative. *)
Definition outOfRangeParams : Params.t :=
  {| Params.signerContractAddress := None;
     Params.pubKey := Some {| pubX := -1; pubY := 0 |};
     Params.passkeyServerUrl := "https://passkeys.example";
     Params.passkeyName := "demo";
     Params.mode := None |}.

(** The endpoint reports chain 1 when first asked and chain 80001, which
    has the precompile, from then on. *)
Definition moving : Script :=
  {| rpcChainId := [Ok 1; Ok 80001; Ok 80001];
     provisioned := Ok (Some demoKey);
     signInitiate := Ok {| ok := true; status := 200; json := Ok challengeBody |};
     assertion := Ok demoCred;
     signVerify := Ok {| ok := true; status := 200; json := Ok (verifiedBody true) |} |}.

Definition demoTypedData : TypedDataDefinition :=
  {| domain := JObject [("name", JString "Demo")];
     types := [("Mail", [("contents", "string")])];
     primaryType := "Mail";
     message := JObject [("contents", JString "hello")] |}.

(** The primary type is not declared. *)
Definition badTypedData : TypedDataDefinition :=
  {| domain := JObject [("name", JString "Demo")];
     types := [("Mail", [("contents", "string")])];
     primaryType := "Letter";
     message := JObject [("contents", JString "hello")] |}.

End Demo.

(* ===================================================================== *)
(** ** Further observations on a log, and further scripts *)
(* ===================================================================== *)

Module Protocol.

(** The requests of a log: the URL and the second argument of each
    [fetch], in order. *)
Definition requestOfCall (c : call) : list (string * RequestInit) :=
  match c with
  | Call (fetch url init) _ => [(url, init)]
  | _ => []
  end.

Definition requestsOf (log : list call) : list (string * RequestInit) :=
  flat_map requestOfCall log.

(** The authenticator prompts of a log: the options of each
    [startAuthentication] and how it settled. *)
Definition promptOfCall (c : call)
  : list (PublicKeyCredentialRequestOptionsJSON * result AuthenticationResponseJSON) :=
  match c with
  | Call ev settled =>
      match ev in event T
            return result T ->
                   list (PublicKeyCredentialRequestOptionsJSON
                         * result AuthenticationResponseJSON) with
      | startAuthentication options => fun settled => [(options, settled)]
      | _ => fun _ => []
      end settled
  end.

Definition promptsOf (log : list call)
  : list (PublicKeyCredentialRequestOptionsJSON * result AuthenticationResponseJSON) :=
  flat_map promptOfCall log.

(** What the server answered to the first request of a log: the parsed
    body of the [sign-initiate] response. *)
Definition initiationOf (log : list call) : option JSValue :=
  match log with
  | c :: _ => jsonOfCall c
  | [] => None
  end.

(** The arguments of the key provisioning calls of a log. *)
Definition provisioningOfCall (c : call) : list (string * string * WebAuthnMode) :=
  match c with
  | Call (toWebAuthnPubKey passkeyName passkeyServerUrl mode) _ =>
      [(passkeyName, passkeyServerUrl, mode)]
  | _ => []
  end.

Definition provisioningOf (log : list call) : list (string * string * WebAuthnMode) :=
  flat_map provisioningOfCall log.

(** Reading the output of [getSignerData] back: two words, [pubX] and
    [pubY]. *)
Definition decodeSignerData (data : Hex) : option WebAuthnKey :=
  match uintAt 0 data, uintAt 1 data with
  | Some x, Some y => Some {| pubX := x; pubY := y |}
  | _, _ => None
  end.

(** The number of 32-byte words that hold [n] bytes. *)
Definition wordsFor (n : nat) : nat := ((n + 31) / 32)%nat.

End Protocol.
Export Protocol.

Module Scenarios.
Import Demo.

(** The user dismisses the authenticator prompt. *)
Definition cancelled : Script :=
  {| rpcChainId := [Ok 1];
     provisioned := Ok (Some demoKey);
     signInitiate := Ok {| ok := true; status := 200; json := Ok challengeBody |};
     assertion := Err (Rejected "authenticator" "NotAllowedError");
     signVerify := Ok {| ok := true; status := 200; json := Ok (verifiedBody true) |} |}.

(** The verification response has no [success] property. *)
Definition noSuccessField : Script :=
  {| rpcChainId := [Ok 1];
     provisioned := Ok (Some demoKey);
     signInitiate := Ok {| ok := true; status := 200; json := Ok challengeBody |};
     assertion := Ok demoCred;
     signVerify :=
       Ok {| ok := true; status := 200;
             json := Ok (JObject [("authenticatorData", JString "AQID")]) |} |}.

(** Provisioning resolves to nothing. *)
Definition unprovisioned : Script :=
  {| rpcChainId := [Ok 1];
     provisioned := Ok None;
     signInitiate := Ok {| ok := true; status := 200; json := Ok challengeBody |};
     assertion := Ok demoCred;
     signVerify := Ok {| ok := true; status := 200; json := Ok (verifiedBody true) |} |}.

(** The caller chooses the signer contract and the mode. *)
Definition customParams : Params.t :=
  {| Params.signerContractAddress := Some "0x1111111111111111111111111111111111111111";
     Params.pubKey := None;
     Params.passkeyServerUrl := "https://passkeys.example";
     Params.passkeyName := "demo";
     Params.mode := Some Login |}.

(** An assertion whose client data JSON is 112 bytes long, and a server
    that verifies it. *)
Definition longCred : AuthenticationResponseJSON :=
  {| id := "credential-1";
     rawId := "credential-1";
     response :=
       {| clientDataJSON :=
            "eyJ0eXBlIjoid2ViYXV0aG4uZ2V0IiwiY2hhbGxlbmdlIjoiYWFhYWFhYWFhYWFhYWFhYWFhYWFhYWFhYWFhYWFhYWFhYWFhYWFhYWFhYWFhYWEiLCJvcmlnaW4iOiJodHRwczovL2V4YW1wbGUuY29tIn0=";
          authenticatorData := "AQIDBAUGBwgJCgsMDQ4PEBESExQVFhcYGRobHB0eHyAhIiMkJQ==";
          signature :=
            "EjRWeJCrze8SNFZ4kKvN7xI0VniQq83vEjRWeJCrze8P7cuph2VDIf7cuph2VDIf7cuph2VDIf7cuph2VDIf7Q==" |};
     credType := "public-key" |}.

Definition typical : Script :=
  {| rpcChainId := [Ok 1];
     provisioned := Ok (Some demoKey);
     signInitiate := Ok {| ok := true; status := 200; json := Ok challengeBody |};
     assertion := Ok longCred;
     signVerify := Ok {| ok := true; status := 200; json := Ok (verifiedBody true) |} |}.


End Scenarios.

(** Case analysis of a hypothesis that equates a run, written out call by
    call, with its outcome: every scrutinee is split in turn. *)
Ltac run_cases H :=
  cbv zeta in H;
  repeat match type of H with
         | context [match ?x with _ => _ end] => destruct x eqn:?
         end.

(* ===================================================================== *)
(** ** Facts about strings and hexadecimal text *)
(* ===================================================================== *)

Module StringFacts.

Lemma length_append (a b : string) :
  String.length (a ++ b) = (String.length a + String.length b)%nat.
Proof. induction a as [|c a IH]; simpl; [reflexivity | now rewrite IH]. Qed.

Lemma append_assoc (a b c : string) : ((a ++ b) ++ c = a ++ (b ++ c))%string.
Proof. induction a as [|x a IH]; simpl; [reflexivity | now rewrite IH]. Qed.

Lemma append_nil_r (a : string) : (a ++ "" = a)%string.
Proof. induction a as [|x a IH]; simpl; [reflexivity | now rewrite IH]. Qed.

Lemma substring_skip (a b : string) (n m : nat) :
  String.substring (String.length a + n) m (a ++ b) = String.substring n m b.
Proof. induction a as [|c a IH]; simpl; [reflexivity | exact IH]. Qed.

Lemma substring_take (a b : string) :
  String.substring 0 (String.length a) (a ++ b) = a.
Proof.
  induction a as [|c a IH]; simpl.
  - destruct b; reflexivity.
  - now rewrite IH.
Qed.

Lemma length_zeros (n : nat) : String.length (zeros n) = n.
Proof. induction n; simpl; congruence. Qed.

End StringFacts.

Module HexFacts.
Import StringFacts.

Lemma length_toString16 (w : nat) (n : Z) : String.length (toString16 w n) = w.
Proof.
  revert n; induction w as [|w IH]; intros n; simpl; [reflexivity|].
  rewrite length_append, IH; simpl; lia.
Qed.

Lemma hexValue_hexDigit (d : Z) : 0 <= d < 16 -> hexValue (hexDigit d) = Some d.
Proof.
  intros H.
  assert (C : d = 0 \/ d = 1 \/ d = 2 \/ d = 3 \/ d = 4 \/ d = 5 \/ d = 6 \/ d = 7 \/
              d = 8 \/ d = 9 \/ d = 10 \/ d = 11 \/ d = 12 \/ d = 13 \/ d = 14 \/ d = 15)
    by lia.
  repeat (destruct C as [-> | C]; [reflexivity|]); subst; reflexivity.
Qed.

Lemma hexToBigInt_append (a b : string) (acc : Z) :
  hexToBigInt acc (a ++ b) =
  match hexToBigInt acc a with
  | Some v => hexToBigInt v b
  | None => None
  end.
Proof.
  revert acc; induction a as [|c a IH]; intros acc; simpl; [reflexivity|].
  destruct (hexValue c); [apply IH | reflexivity].
Qed.

Lemma hexToBigInt_toString16 (w : nat) (n acc : Z) :
  0 <= n ->
  hexToBigInt acc (toString16 w n) = Some (acc * 16 ^ Z.of_nat w + n mod 16 ^ Z.of_nat w).
Proof.
  revert n acc; induction w as [|w IH]; intros n acc Hn.
  - simpl. rewrite Z.mod_1_r. f_equal; lia.
  - cbn [toString16]. rewrite hexToBigInt_append, IH by (apply Z.div_pos; lia).
    cbn [hexToBigInt].
    rewrite hexValue_hexDigit by (apply Z.mod_pos_bound; lia).
    f_equal.
    rewrite Nat2Z.inj_succ, Z.pow_succ_r by lia.
    rewrite (Z.rem_mul_r n 16 (16 ^ Z.of_nat w)) by (try apply Z.pow_pos_nonneg; lia).
    lia.
Qed.

End HexFacts.

Module AbiFacts.
Import StringFacts HexFacts.

Lemma pow_16_64 : 16 ^ Z.of_nat 64 = 2 ^ 256.
Proof. reflexivity. Qed.

Lemma Ok_inj {A : Type} (a b : A) : Ok a = Ok b -> a = b.
Proof. intros H. now injection H. Qed.

Lemma Some_inj {A : Type} (a b : A) : Some a = Some b -> a = b.
Proof. intros H. now injection H. Qed.

Lemma numberToHex_Ok (v : Z) (h : Hex) :
  numberToHex v = Ok h -> 0 <= v < 2 ^ 256 /\ h = ("0x" ++ toString16 64 v)%string.
Proof.
  unfold numberToHex.
  destruct (Z.gtb_spec v maxUint256) as [Hhi|Hhi]; [discriminate|].
  destruct (Z.ltb_spec v 0) as [Hlo|Hlo]; [discriminate|].
  cbv beta iota delta [orb].
  intros H. apply Ok_inj in H. subst h.
  unfold maxUint256 in Hhi. split; [lia | reflexivity].
Qed.

Lemma numberToHex_in_range (v : Z) :
  0 <= v < 2 ^ 256 -> numberToHex v = Ok ("0x" ++ toString16 64 v)%string.
Proof.
  intros H. unfold numberToHex.
  destruct (Z.gtb_spec v maxUint256) as [Hhi|Hhi]; [unfold maxUint256 in Hhi; lia|].
  destruct (Z.ltb_spec v 0) as [Hlo|Hlo]; [lia|].
  reflexivity.
Qed.

Lemma uint_roundtrip (v : Z) :
  0 <= v < 2 ^ 256 -> hexToBigInt 0 (toString16 64 v) = Some v.
Proof.
  intros H. rewrite hexToBigInt_toString16 by lia.
  rewrite pow_16_64, Z.mod_small by lia. f_equal; lia.
Qed.

Lemma isWord_toString16 (v : Z) : isWord ("0x" ++ toString16 64 v).
Proof. exists (toString16 64 v). split; [reflexivity | apply length_toString16]. Qed.

Lemma joined_acc (values : list Hex) (acc : string) :
  fold_left (fun acc x => acc ++ replace_0x x)%string values acc
  = (acc ++ joined values)%string.
Proof.
  unfold joined. revert acc; induction values as [|x values IH]; intros acc; simpl.
  - now rewrite append_nil_r.
  - rewrite IH, (IH (replace_0x x)). now rewrite append_assoc.
Qed.

Lemma joined_cons (x : Hex) (values : list Hex) :
  joined (x :: values) = (replace_0x x ++ joined values)%string.
Proof. unfold joined at 1. simpl. apply joined_acc. Qed.

Lemma word_0 (d t : string) :
  String.length d = 64%nat -> word 0 (String "0" (String "x" (d ++ t))) = d.
Proof.
  intros H. unfold word. cbn [Nat.mul Nat.add String.substring].
  rewrite <- H. apply substring_take.
Qed.

Lemma word_S (i : nat) (d t : string) :
  String.length d = 64%nat ->
  word (S i) (String "0" (String "x" (d ++ t))) = word i (String "0" (String "x" t)).
Proof.
  intros H. unfold word.
  replace (2 + 64 * S i)%nat with (S (S (String.length d + 64 * i))) by lia.
  replace (2 + 64 * i)%nat with (S (S (64 * i))) by lia.
  cbn [String.substring].
  apply substring_skip.
Qed.

Lemma concat_cons_word (d : string) (values : list Hex) :
  concat (String "0" (String "x" d) :: values)
  = String "0" (String "x" (d ++ joined values)).
Proof. unfold concat. rewrite joined_cons. reflexivity. Qed.

Lemma word_concat (heads : list Hex) (tails : list Hex) (i : nat) (d : string) :
  Forall isWord heads ->
  nth_error heads i = Some ("0x" ++ d)%string ->
  word i (concat (heads ++ tails)) = d.
Proof.
  intros Hall. revert i. induction Hall as [|h heads [d0 [-> Hlen]] Hall IH]; intros i Hi.
  - destruct i; discriminate.
  - change ("0x" ++ d0)%string with (String "0" (String "x" d0)) in *.
    cbn [app]. rewrite concat_cons_word.
    destruct i as [|i]; cbn [nth_error] in Hi.
    + apply Some_inj in Hi. change ("0x" ++ d)%string with (String "0" (String "x" d)) in Hi.
      assert (d0 = d) by congruence. subst d0.
      now apply word_0.
    + rewrite word_S by assumption. now apply IH.
Qed.

End AbiFacts.

Module EncodeFacts.
Import StringFacts HexFacts AbiFacts.

Lemma bind_Ok {A B : Type} (r : result A) (f : A -> result B) (b : B) :
  Js.bind r f = Ok b -> exists a, r = Ok a /\ f a = Ok b.
Proof. destruct r as [a|e]; simpl; intros H; [eauto | discriminate]. Qed.

Lemma encodeNumber_Ok (n : Z) (x : PreparedParam) :
  encodeNumber n = Ok x ->
  0 <= n < 2 ^ 256 /\ x = {| dynamic := false; encoded := ("0x" ++ toString16 64 n)%string |}.
Proof.
  unfold encodeNumber. intros H.
  apply bind_Ok in H as (h & Hh & H). apply Ok_inj in H. subst x.
  apply numberToHex_Ok in Hh as [Hr ->]. auto.
Qed.

Lemma encodeBool_eq (b : bool) :
  encodeBool b =
  Ok {| dynamic := false; encoded := ("0x" ++ toString16 64 (if b then 1 else 0))%string |}.
Proof. destruct b; vm_compute; reflexivity. Qed.

Lemma encodeBytes_dynamic (h : Hex) (x : PreparedParam) :
  encodeBytes h = Ok x -> dynamic x = true.
Proof.
  unfold encodeBytes. intros H.
  apply bind_Ok in H as (v & _ & H).
  apply bind_Ok in H as (l & _ & H).
  apply bind_Ok in H as (l' & _ & H).
  apply Ok_inj in H. now subst x.
Qed.

Lemma encodeString_dynamic (s : string) (x : PreparedParam) :
  encodeString s = Ok x -> dynamic x = true.
Proof.
  unfold encodeString. intros H.
  apply bind_Ok in H as (v & _ & H).
  apply bind_Ok in H as (l & _ & H).
  apply bind_Ok in H as (l' & _ & H).
  apply Ok_inj in H. now subst x.
Qed.

(** A prepared parameter is dynamic or one word. *)
Lemma prepareParam_shape (p : AbiParameter) (v : AbiValue) (x : PreparedParam) :
  prepareParam p v = Ok x -> dynamic x = true \/ (dynamic x = false /\ isWord (encoded x)).
Proof.
  unfold prepareParam. destruct (type p), v; try discriminate; intros H.
  - left. eapply encodeBytes_dynamic; eauto.
  - left. eapply encodeString_dynamic; eauto.
  - right. apply encodeNumber_Ok in H as [_ ->]. split; [reflexivity | apply isWord_toString16].
  - right. rewrite encodeBool_eq in H. apply Ok_inj in H. subst x.
    split; [reflexivity | apply isWord_toString16].
Qed.

Lemma prepareParams_nth (params : list AbiParameter) (values : list AbiValue)
    (xs : list PreparedParam) :
  prepareParams params values = Ok xs ->
  (forall x, In x xs -> dynamic x = true \/ (dynamic x = false /\ isWord (encoded x))) /\
  forall i p v, nth_error params i = Some p -> nth_error values i = Some v ->
    exists x, nth_error xs i = Some x /\ prepareParam p v = Ok x.
Proof.
  revert values xs. induction params as [|p0 params IH]; intros values xs H.
  - injection H as <-. split; [intros x []|]. intros [|i] p v Hp; discriminate.
  - destruct values as [|v0 values].
    + injection H as <-. split; [intros x []|]. intros [|i] p v _ Hv; discriminate.
    + cbn [prepareParams] in H.
      apply bind_Ok in H as (x0 & Hx0 & H).
      apply bind_Ok in H as (xs' & Hxs & H). injection H as <-.
      destruct (IH _ _ Hxs) as [Hall Hnth].
      split.
      * intros x [<- | Hin]; [eapply prepareParam_shape; eauto | auto].
      * intros [|i] p v Hp Hv; cbn [nth_error] in *.
        -- injection Hp as <-. injection Hv as <-. eauto.
        -- eauto.
Qed.

Lemma splitParams_heads (xs : list PreparedParam) :
  (forall x, In x xs -> dynamic x = true \/ (dynamic x = false /\ isWord (encoded x))) ->
  forall staticSize dynamicSize heads tails,
  splitParams staticSize dynamicSize xs = Ok (heads, tails) ->
  Forall isWord heads /\
  forall i x, nth_error xs i = Some x -> dynamic x = false ->
    nth_error heads i = Some (encoded x).
Proof.
  induction xs as [|x0 xs IH]; intros Hall staticSize dynamicSize heads tails H.
  - injection H as <- <-. split; [constructor|]. intros [|i] x Hx; discriminate.
  - cbn [splitParams] in H.
    assert (Hall' : forall x, In x xs ->
              dynamic x = true \/ (dynamic x = false /\ isWord (encoded x)))
      by (intros x Hx; apply Hall; now right).
    destruct (dynamic x0) eqn:Hd.
    + apply bind_Ok in H as (off & Hoff & H).
      apply bind_Ok in H as ([hs ts] & Hrec & H). injection H as <- <-.
      apply numberToHex_Ok in Hoff as [_ ->].
      destruct (IH Hall' _ _ _ _ Hrec) as [Hw Hn].
      split; [constructor; [apply isWord_toString16 | exact Hw]|].
      intros [|i] x Hx Hs; cbn [nth_error] in *; [|eauto].
      injection Hx as <-. congruence.
    + apply bind_Ok in H as ([hs ts] & Hrec & H). injection H as <- <-.
      destruct (IH Hall' _ _ _ _ Hrec) as [Hw Hn].
      destruct (Hall x0 (or_introl eq_refl)) as [Ht | [_ Hword]]; [congruence|].
      split; [constructor; assumption|].
      intros [|i] x Hx Hs; cbn [nth_error] in *; [|eauto].
      now injection Hx as <-.
Qed.

(** The head word of a static parameter holds its encoding. *)
Lemma encodeAbiParameters_static (params : list AbiParameter) (values : list AbiValue)
    (encoded_ : Hex) (i : nat) (p : AbiParameter) (v : AbiValue) (x : PreparedParam) (d : string) :
  encodeAbiParameters params values = Ok encoded_ ->
  nth_error params i = Some p -> nth_error values i = Some v ->
  prepareParam p v = Ok x -> dynamic x = false -> encoded x = ("0x" ++ d)%string ->
  word i encoded_ = d.
Proof.
  unfold encodeAbiParameters. intros H Hp Hv Hx Hs Hd.
  destruct (negb _); [discriminate|].
  apply bind_Ok in H as (xs & Hxs & H).
  unfold encodeParams in H.
  apply bind_Ok in H as ([heads tails] & Hsplit & H). injection H as <-.
  destruct (prepareParams_nth _ _ _ Hxs) as [Hall Hnth].
  destruct (Hnth _ _ _ Hp Hv) as (x' & Hx' & Hpx).
  assert (x' = x) by congruence. subst x'.
  destruct (splitParams_heads _ Hall _ _ _ _ Hsplit) as [Hw Hh].
  apply word_concat; [exact Hw|].
  rewrite <- Hd. now apply Hh.
Qed.

Lemma encodeAbiParameters_uint256 (params : list AbiParameter) (values : list AbiValue)
    (encoded_ : Hex) (i : nat) (p : AbiParameter) (n : Z) :
  encodeAbiParameters params values = Ok encoded_ ->
  nth_error params i = Some p -> type p = uint256 ->
  nth_error values i = Some (VBigInt n) ->
  uintAt i encoded_ = Some n.
Proof.
  intros H Hp Ht Hv.
  assert (Hx : exists x, prepareParam p (VBigInt n) = Ok x).
  { unfold encodeAbiParameters in H. destruct (negb _); [discriminate|].
    apply bind_Ok in H as (xs & Hxs & _).
    destruct (prepareParams_nth _ _ _ Hxs) as [_ Hnth].
    destruct (Hnth _ _ _ Hp Hv) as (x & _ & Hx). eauto. }
  destruct Hx as [x Hx].
  pose proof Hx as Hx'. unfold prepareParam in Hx'. rewrite Ht in Hx'.
  apply encodeNumber_Ok in Hx' as [Hr ->].
  unfold uintAt.
  erewrite encodeAbiParameters_static by (eauto; reflexivity).
  now apply uint_roundtrip.
Qed.

Lemma encodeAbiParameters_bool (params : list AbiParameter) (values : list AbiValue)
    (encoded_ : Hex) (i : nat) (p : AbiParameter) (b : bool) :
  encodeAbiParameters params values = Ok encoded_ ->
  nth_error params i = Some p -> type p = bool_ ->
  nth_error values i = Some (VBoolean b) ->
  boolAt i encoded_ = Some b.
Proof.
  intros H Hp Ht Hv.
  assert (Hx : prepareParam p (VBoolean b) = encodeBool b)
    by (unfold prepareParam; now rewrite Ht).
  rewrite encodeBool_eq in Hx.
  unfold boolAt, uintAt.
  erewrite encodeAbiParameters_static by (eauto; reflexivity).
  rewrite uint_roundtrip by (destruct b; lia).
  now destruct b.
Qed.

End EncodeFacts.

(* ===================================================================== *)
(** ** The layout of dynamic fields *)
(* ===================================================================== *)

Module LayoutFacts.
Import StringFacts HexFacts AbiFacts EncodeFacts.

Lemma length_substring_le (n m : nat) (s : string) :
  (String.length (String.substring n m s) <= m)%nat.
Proof.
  revert n m; induction s as [|c s IH]; intros n m.
  - destruct n, m; simpl; lia.
  - destruct n as [|n]; simpl.
    + destruct m as [|m]; simpl; [lia|]. specialize (IH 0%nat m). lia.
    + apply IH.
Qed.

Lemma substring_all (m : nat) (s : string) :
  (String.length s <= m)%nat -> String.substring 0 m s = s.
Proof.
  revert m; induction s as [|c s IH]; intros m H.
  - destruct m; reflexivity.
  - destruct m as [|m]; simpl in *; [lia|]. rewrite IH by lia. reflexivity.
Qed.

Lemma substring_slice (n k m : nat) (s : string) :
  String.substring (n + k) m s = String.substring k m (slice n s).
Proof.
  revert s; induction n as [|n IH]; intros s; [reflexivity|].
  destruct s as [|c s].
  - simpl. destruct k, m; reflexivity.
  - simpl. apply IH.
Qed.

Lemma length_slice (n : nat) (s : string) :
  String.length (slice n s) = (String.length s - n)%nat.
Proof.
  revert s; induction n as [|n IH]; intros s; simpl; [lia|].
  destruct s as [|c s]; simpl; [reflexivity | apply IH].
Qed.

Lemma take_slice (n : nat) (s : string) :
  (n <= String.length s)%nat ->
  s = (String.substring 0 n s ++ slice n s)%string /\
  String.length (String.substring 0 n s) = n.
Proof.
  revert s; induction n as [|n IH]; intros s H.
  - destruct s; simpl; auto.
  - destruct s as [|c s]; simpl in *; [lia|].
    destruct (IH s) as [E L]; [lia|]. rewrite L. split; [|reflexivity].
    f_equal. exact E.
Qed.

Lemma slice_short (n : nat) (s : string) :
  (String.length s <= n)%nat -> slice n s = EmptyString.
Proof.
  intros H. pose proof (length_slice n s) as L.
  destruct (slice n s); [reflexivity | simpl in L; lia].
Qed.

Lemma zeros_add (a b : nat) : zeros (a + b) = (zeros a ++ zeros b)%string.
Proof. induction a as [|a IH]; simpl; [reflexivity | now rewrite IH]. Qed.

Lemma substring_mid (pre x post : string) :
  String.substring (String.length pre) (String.length x) (pre ++ x ++ post) = x.
Proof.
  replace (String.length pre) with (String.length pre + 0)%nat by lia.
  rewrite substring_skip. apply substring_take.
Qed.


Lemma mapM_map {A B : Type} (f : A -> result B) (g : A -> B) (l : list A) :
  (forall a, In a l -> f a = Ok (g a)) -> mapM f l = Ok (List.map g l).
Proof.
  induction l as [|a l IH]; intros H; [reflexivity|].
  cbn [mapM List.map]. rewrite (H a) by (now left). cbn [Js.bind].
  rewrite IH by (intros; apply H; now right). reflexivity.
Qed.

Lemma padHex_right_chunk (hx : string) (i : nat) :
  padHex dirRight 32 (sliceHex (String "0" (String "x" hx)) (i * 32) ((i + 1) * 32))
  = Ok (String "0" (String "x" (padEnd (String.substring (i * 64) 64 hx) 64))).
Proof.
  unfold sliceHex. cbn [replace_0x].
  replace ((i + 1) * 32 * 2 - i * 32 * 2)%nat with 64%nat by lia.
  replace (i * 32 * 2)%nat with (i * 64)%nat by lia.
  unfold padHex.
  change (replace_0x ("0x" ++ String.substring (i * 64) 64 hx))
    with (String.substring (i * 64) 64 hx).
  cbv zeta.
  pose proof (length_substring_le (i * 64) 64 hx) as L.
  destruct (Z.gtb_spec (Z.of_nat (String.length (String.substring (i * 64) 64 hx))) (32 * 2));
    [lia|].
  reflexivity.
Qed.

Lemma joined_chunks (m : nat) (t : string) :
  (String.length t <= 64 * m)%nat ->
  joined (List.map (fun i => String "0" (String "x" (padEnd (String.substring (i * 64) 64 t) 64)))
                   (seq 0 m))
  = (t ++ zeros (64 * m - String.length t))%string.
Proof.
  revert t; induction m as [|m IH]; intros t H.
  - destruct t; [reflexivity | simpl in H; lia].
  - cbn [seq List.map]. rewrite joined_cons. cbn [replace_0x].
    rewrite <- seq_shift, map_map.
    rewrite (map_ext _ (fun i => String "0" (String "x"
                          (padEnd (String.substring (i * 64) 64 (slice 64 t)) 64)))).
    2:{ intros i. replace (S i * 64)%nat with (64 + i * 64)%nat by lia.
        now rewrite substring_slice. }
    rewrite IH by (rewrite length_slice; lia).
    rewrite length_slice. cbn [Nat.mul Nat.add].
    destruct (Nat.le_gt_cases 64 (String.length t)) as [Hge|Hlt].
    + destruct (take_slice 64 t Hge) as [E L].
      unfold padEnd. rewrite L, Nat.sub_diag. cbn [zeros].
      rewrite append_nil_r.
      rewrite <- append_assoc, <- E. f_equal. f_equal. lia.
    + rewrite substring_all by lia.
      rewrite slice_short by lia. cbn [append].
      unfold padEnd. rewrite append_assoc, <- zeros_add. f_equal. f_equal. lia.
Qed.


Lemma startsWith_0x (s : string) : startsWith (String "0" (String "x" s)) "0x" = true.
Proof.
  unfold startsWith. cbn [String.prefix].
  destruct (ascii_dec "0" "0") as [_|n]; [|now elim n].
  destruct (ascii_dec "x" "x") as [_|n]; [|now elim n].
  destruct s; reflexivity.
Qed.

Lemma size_0x (s : string) :
  size (String "0" (String "x" s)) = (Z.of_nat (String.length s) + 1) / 2.
Proof.
  unfold size. rewrite startsWith_0x. cbn [String.length].
  f_equal. lia.
Qed.

Lemma size_0x_even (s : string) (n : nat) :
  String.length s = (2 * n)%nat -> size (String "0" (String "x" s)) = Z.of_nat n.
Proof.
  intros H. rewrite size_0x, H.
  replace (Z.of_nat (2 * n) + 1) with (1 + Z.of_nat n * 2) by lia.
  rewrite Z.div_add by lia. reflexivity.
Qed.

Lemma padHex_left_word (v : Z) :
  padHex dirLeft 32 (String "0" (String "x" (toString16 64 v)))
  = Ok (String "0" (String "x" (toString16 64 v))).
Proof.
  unfold padHex. cbn [replace_0x]. cbv zeta.
  change (replace_0x (String "0" (String "x" (toString16 64 v)))) with (toString16 64 v).
  rewrite length_toString16.
  destruct (Z.gtb_spec (Z.of_nat 64) (32 * 2)); [lia|].
  unfold padStart. rewrite length_toString16.
  replace (Z.to_nat (32 * 2) - 64)%nat with 0%nat by lia.
  reflexivity.
Qed.

Lemma length_bytesToHex (l : list Z) :
  exists hx, bytesToHex l = String "0" (String "x" hx) /\
             String.length hx = (2 * List.length l)%nat.
Proof.
  unfold bytesToHex. eexists. split; [reflexivity|].
  induction l as [|b l IH]; [reflexivity|].
  cbn [fold_right List.length]. rewrite length_append, IH, length_toString16. lia.
Qed.

(** The encoding of a string: its byte length, then the hexadecimal text
    of its bytes padded with zeros to whole words. *)
Lemma encodeString_layout (c : string) (pc : PreparedParam) :
  encodeString c = Ok pc ->
  exists hx n z,
    stringToHex c = String "0" (String "x" hx) /\
    String.length hx = (2 * n)%nat /\
    0 <= Z.of_nat n < 2 ^ 256 /\
    encoded pc
    = String "0" (String "x" (toString16 64 (Z.of_nat n) ++ hx ++ zeros z)).
Proof.
  unfold encodeString, stringToHex.
  destruct (length_bytesToHex (encode c)) as (hx & -> & Hlen).
  set (n := List.length (encode c)) in *.
  rewrite (size_0x_even hx n Hlen).
  intros H.
  apply bind_Ok in H as (parts & Hparts & H).
  apply bind_Ok in H as (len & Hnum & H).
  apply numberToHex_Ok in Hnum as [Hr ->].
  change ("0x" ++ toString16 64 (Z.of_nat n))%string
    with (String "0" (String "x" (toString16 64 (Z.of_nat n)))) in H.
  rewrite padHex_left_word in H. cbn [Js.bind] in H.
  apply Ok_inj in H. subst pc. cbn [encoded].
  rewrite (mapM_map _ (fun i => String "0" (String "x"
                          (padEnd (String.substring (i * 64) 64 hx) 64)))) in Hparts
    by (intros; apply padHex_right_chunk).
  apply Ok_inj in Hparts. subst parts.
  exists hx, n, (64 * Z.to_nat ((Z.of_nat n + 31) / 32) - String.length hx)%nat.
  split; [reflexivity|]. split; [exact Hlen|]. split; [exact Hr|].
  unfold concat. rewrite joined_cons. cbn [replace_0x].
  rewrite joined_chunks; [reflexivity|].
  rewrite Hlen.
  assert (Z.of_nat n <= 32 * ((Z.of_nat n + 31) / 32)).
  { pose proof (Z.mod_pos_bound (Z.of_nat n + 31) 32 ltac:(lia)).
    pose proof (Z.div_mod (Z.of_nat n + 31) 32 ltac:(lia)). lia. }
  assert (0 <= (Z.of_nat n + 31) / 32) by (apply Z.div_pos; lia).
  lia.
Qed.


(** The encoding of a byte string given as [0x] and an even number of
    digits: its byte length, then the digits padded with zeros. *)
Lemma encodeBytes_layout (d : string) (n : nat) (pa : PreparedParam) :
  String.length d = (2 * n)%nat ->
  encodeBytes (String "0" (String "x" d)) = Ok pa ->
  exists z k,
    (String.length d + z = 2 * k)%nat /\
    0 <= Z.of_nat n < 2 ^ 256 /\
    encoded pa = String "0" (String "x" (toString16 64 (Z.of_nat n) ++ d ++ zeros z)).
Proof.
  intros Hlen. unfold encodeBytes.
  rewrite (size_0x_even d n Hlen). cbv zeta.
  intros H.
  apply bind_Ok in H as (value_ & Hvalue & H).
  apply bind_Ok in H as (len & Hnum & H).
  apply numberToHex_Ok in Hnum as [Hr ->].
  change ("0x" ++ toString16 64 (Z.of_nat n))%string
    with (String "0" (String "x" (toString16 64 (Z.of_nat n)))) in H.
  rewrite padHex_left_word in H. cbn [Js.bind] in H.
  apply Ok_inj in H. subst pa. cbn [encoded].
  unfold concat. rewrite !joined_cons. cbn [replace_0x].
  change (joined []) with EmptyString.
  destruct (negb (Z.rem (Z.of_nat n) 32 =? 0)).
  - unfold padHex in Hvalue. cbv zeta in Hvalue.
    change (replace_0x (String "0" (String "x" d))) with d in Hvalue.
    cbn [String.length] in Hvalue.
    set (P := (Z.of_nat (S (S (String.length d))) - 2 + 63) / 64 * 32) in *.
    assert (HP : exists q, P = 32 * Z.of_nat q /\ (String.length d <= 64 * q)%nat).
    { exists (Z.to_nat ((Z.of_nat (String.length d) + 63) / 64)).
      assert (0 <= (Z.of_nat (String.length d) + 63) / 64) by (apply Z.div_pos; lia).
      pose proof (Z.mod_pos_bound (Z.of_nat (String.length d) + 63) 64 ltac:(lia)).
      pose proof (Z.div_mod (Z.of_nat (String.length d) + 63) 64 ltac:(lia)).
      subst P.
      replace (Z.of_nat (S (S (String.length d))) - 2 + 63)
        with (Z.of_nat (String.length d) + 63) by lia.
      split; lia. }
    destruct HP as (q & HPq & Hq).
    destruct (Z.gtb_spec (Z.of_nat (String.length d)) (P * 2)); [lia|].
    apply Ok_inj in Hvalue. subst value_. cbn [replace_0x].
    change (replace_0x (String "0" (String "x" (padEnd d (Z.to_nat (P * 2))))))
      with (padEnd d (Z.to_nat (P * 2))).
    unfold padEnd.
    exists (Z.to_nat (P * 2) - String.length d)%nat, (32 * q)%nat.
    split; [lia|]. split; [exact Hr|].
    now rewrite append_nil_r.
  - apply Ok_inj in Hvalue. subst value_.
    change (replace_0x (String "0" (String "x" d))) with d.
    exists 0%nat, n. split; [lia|]. split; [exact Hr|].
    reflexivity.
Qed.


Lemma pair_inj {A B : Type} (a c : A) (b d : B) : (a, b) = (c, d) -> a = c /\ b = d.
Proof. intros H. now injection H. Qed.

Lemma concat_cons_word_tail (d : string) (values : list Hex) :
  joined (String "0" (String "x" d) :: values) = (d ++ joined values)%string.
Proof. rewrite joined_cons. reflexivity. Qed.

Lemma size_word (v : Z) : size (String "0" (String "x" (toString16 64 v))) = 32.
Proof. apply (size_0x_even _ 32). apply length_toString16. Qed.

Lemma piece_at (pre x post : string) (n m : nat) :
  String.length pre = n -> String.length x = m ->
  String.substring (2 + n) m (String "0" (String "x" (pre ++ x ++ post))) = x.
Proof. intros <- <-. cbn [Nat.add String.substring]. apply substring_mid. Qed.

Lemma dynamicAt_piece (i : nat) (sig : Hex) (pre data post : string) (off n : nat) :
  uintAt i sig = Some (Z.of_nat off) ->
  sig = String "0" (String "x" (pre ++ toString16 64 (Z.of_nat n) ++ data ++ post)) ->
  String.length pre = (2 * off)%nat ->
  String.length data = (2 * n)%nat ->
  0 <= Z.of_nat n < 2 ^ 256 ->
  dynamicAt i sig = Some data.
Proof.
  intros Hoff -> Hpre Hdata Hn. unfold dynamicAt. rewrite Hoff, Nat2Z.id.
  rewrite (piece_at pre (toString16 64 (Z.of_nat n)) (data ++ post) (2 * off) 64 Hpre
             (length_toString16 _ _)).
  rewrite uint_roundtrip by exact Hn. rewrite Nat2Z.id.
  f_equal.
  replace (pre ++ toString16 64 (Z.of_nat n) ++ data ++ post)%string
    with ((pre ++ toString16 64 (Z.of_nat n)) ++ data ++ post)%string
    by (now rewrite append_assoc).
  replace (2 + 2 * off + 64)%nat with (2 + (2 * off + 64))%nat by lia.
  apply piece_at; [|exact Hdata].
  rewrite length_append, length_toString16. lia.
Qed.

(** The two dynamic fields of an encoded signature tuple, read back. *)
Lemma signature_tuple_dynamic (d : string) (n : nat) (c : string) (cl tl r_ s_ : Z)
    (p : bool) (sig : Hex) :
  String.length d = (2 * n)%nat ->
  encodeAbiParameters signatureParams
    [VHex (String "0" (String "x" d)); VString c;
     VBigInt cl; VBigInt tl; VBigInt r_; VBigInt s_; VBoolean p] = Ok sig ->
  authenticatorDataOf sig = Some d /\
  clientDataJSONOf sig = Some (replace_0x (stringToHex c)).
Proof.
  intros Hd H.
  unfold encodeAbiParameters in H.
  cbn [List.length Nat.eqb negb signatureParams prepareParams prepareParam type] in H.
  apply bind_Ok in H as (xs & Hxs & H).
  apply bind_Ok in Hxs as (pa & Hpa & Hxs).
  apply bind_Ok in Hxs as (xs1 & Hxs1 & Hxs). apply Ok_inj in Hxs. subst xs.
  apply bind_Ok in Hxs1 as (pc & Hpc & Hxs1).
  apply bind_Ok in Hxs1 as (xs2 & Hxs2 & Hxs1). apply Ok_inj in Hxs1. subst xs1.
  apply bind_Ok in Hxs2 as (w2 & Hw2 & Hxs2).
  apply bind_Ok in Hxs2 as (xs3 & Hxs3 & Hxs2). apply Ok_inj in Hxs2. subst xs2.
  apply bind_Ok in Hxs3 as (w3 & Hw3 & Hxs3).
  apply bind_Ok in Hxs3 as (xs4 & Hxs4 & Hxs3). apply Ok_inj in Hxs3. subst xs3.
  apply bind_Ok in Hxs4 as (w4 & Hw4 & Hxs4).
  apply bind_Ok in Hxs4 as (xs5 & Hxs5 & Hxs4). apply Ok_inj in Hxs4. subst xs4.
  apply bind_Ok in Hxs5 as (w5 & Hw5 & Hxs5).
  apply bind_Ok in Hxs5 as (xs6 & Hxs6 & Hxs5). apply Ok_inj in Hxs5. subst xs5.
  apply bind_Ok in Hxs6 as (w6 & Hw6 & Hxs6).
  apply bind_Ok in Hxs6 as (xs7 & Hxs7 & Hxs6). apply Ok_inj in Hxs6. subst xs6.
  apply Ok_inj in Hxs7. subst xs7.
  apply encodeNumber_Ok in Hw2 as [_ ->].
  apply encodeNumber_Ok in Hw3 as [_ ->].
  apply encodeNumber_Ok in Hw4 as [_ ->].
  apply encodeNumber_Ok in Hw5 as [_ ->].
  rewrite encodeBool_eq in Hw6. apply Ok_inj in Hw6. subst w6.
  pose proof (encodeBytes_dynamic _ _ Hpa) as Hda.
  pose proof (encodeString_dynamic _ _ Hpc) as Hdc.
  destruct (encodeBytes_layout _ _ _ Hd Hpa) as (z & k & Hk & Hn & Ea).
  destruct (encodeString_layout _ _ Hpc) as (hx & n' & z' & Ehx & Hhx & Hn' & Ec).
  destruct pa as [da ea], pc as [dc ec]. cbn [dynamic encoded] in *. subst da dc ea ec.
  unfold encodeParams, staticSizeOf in H.
  cbn [fold_left dynamic encoded] in H.
  change ("0x" ++ toString16 64 ?v)%string with (String "0" (String "x" (toString16 64 v))) in H.
  repeat change (append "0x" (toString16 64 ?v))
    with (String "0" (String "x" (toString16 64 v))) in H.
  rewrite !size_word in H.
  cbn [splitParams dynamic encoded] in H.
  apply bind_Ok in H as ([heads tails] & Hsplit & H). apply Ok_inj in H. subst sig.
  apply bind_Ok in Hsplit as (off0 & Hoff0 & Hsplit).
  apply bind_Ok in Hsplit as ([heads1 tails1] & Hsplit1 & Hsplit).
  apply Ok_inj in Hsplit. apply pair_inj in Hsplit as [<- <-].
  apply bind_Ok in Hsplit1 as (off1 & Hoff1 & Hsplit1).
  apply Ok_inj in Hsplit1. apply pair_inj in Hsplit1 as [<- <-].
  apply numberToHex_Ok in Hoff0 as [_ ->].
  apply numberToHex_Ok in Hoff1 as [Hr1 ->].
  cbn [app].
  repeat change (append "0x" (toString16 64 ?v))
    with (String "0" (String "x" (toString16 64 v))).
  rewrite (size_0x_even _ (32 + k)) in *
    by (rewrite !length_append, length_toString16, length_zeros; lia).
  replace (0 + 32 + 32 + 32 + 32 + 32 + 32 + 32 + 0) with (Z.of_nat 224) in * by lia.
  replace (0 + 32 + 32 + 32 + 32 + 32 + 32 + 32 + (0 + Z.of_nat (32 + k)))
    with (Z.of_nat (256 + k)) in * by lia.
  unfold concat. rewrite !concat_cons_word_tail. change (joined []) with EmptyString.
  match goal with
  | |- context [append "0x" ?x] => change (append "0x" x) with (String "0" (String "x" x))
  end.
  set (W0 := toString16 64 (Z.of_nat 224)).
  set (W1 := toString16 64 (Z.of_nat (256 + k))).
  set (W2 := toString16 64 cl). set (W3 := toString16 64 tl).
  set (W4 := toString16 64 r_). set (W5 := toString16 64 s_).
  set (W6 := toString16 64 (if p then 1 else 0)).
  assert (L0 : String.length W0 = 64%nat) by apply length_toString16.
  assert (L1 : String.length W1 = 64%nat) by apply length_toString16.
  assert (L2 : String.length W2 = 64%nat) by apply length_toString16.
  assert (L3 : String.length W3 = 64%nat) by apply length_toString16.
  assert (L4 : String.length W4 = 64%nat) by apply length_toString16.
  assert (L5 : String.length W5 = 64%nat) by apply length_toString16.
  assert (L6 : String.length W6 = 64%nat) by apply length_toString16.
  rewrite Ehx. cbn [replace_0x].
  change (replace_0x (String "0" (String "x" hx))) with hx.
  split.
  - apply (dynamicAt_piece 0 _ (W0 ++ W1 ++ W2 ++ W3 ++ W4 ++ W5 ++ W6) d
             (zeros z ++ (toString16 64 (Z.of_nat n') ++ hx ++ zeros z') ++ "") 224 n).
    + unfold uintAt. rewrite word_0 by exact L0. apply uint_roundtrip. lia.
    + now rewrite !append_assoc.
    + rewrite !length_append. lia.
    + exact Hd.
    + exact Hn.
  - apply (dynamicAt_piece 1 _
             (W0 ++ W1 ++ W2 ++ W3 ++ W4 ++ W5 ++ W6 ++ toString16 64 (Z.of_nat n) ++ d ++ zeros z)
             hx (zeros z' ++ "") (256 + k) n').
    + unfold uintAt. rewrite word_S by exact L0. rewrite word_0 by exact L1.
      apply uint_roundtrip. lia.
    + now rewrite !append_assoc.
    + rewrite !length_append, length_toString16, length_zeros. lia.
    + exact Hhx.
    + exact Hn'.
Qed.

End LayoutFacts.

(* ===================================================================== *)
(** ** Facts about runs *)
(* ===================================================================== *)

Module RunFacts.
Import StringFacts HexFacts AbiFacts EncodeFacts.

Section Runs.
Variable World : Type.
Variable respond : forall X : Type, event X -> World -> result X * World.

Lemma run_lift {A B : Type} (r : result A) (f : A -> prog B) (w : World) :
  run World respond (pbind (lift r) f) w =
  match r with
  | Ok a => run World respond (f a) w
  | Err e => (Err e, [], w)
  end.
Proof. destruct r; reflexivity. Qed.

Lemma run_await {X B : Type} (ev : event X) (f : X -> prog B) (w : World) :
  run World respond (pbind (await ev) f) w =
  let (r, w1) := respond X ev w in
  match r with
  | Err e => (Err e, [Call ev r], w1)
  | Ok x => let '(out, log, w2) := run World respond (f x) w1 in (out, Call ev r :: log, w2)
  end.
Proof. reflexivity. Qed.

Lemma run_lift_last {A : Type} (r : result A) (w : World) :
  run World respond (lift r) w = (r, [], w).
Proof. destruct r; reflexivity. Qed.

Context {utils : WebAuthnUtils} {ext : Collaborators}.

(** The run of [signMessageUsingWebAuthn], call by call. *)
Lemma run_signMessage (url : string) (chainId : Z) (message : SignableMessage) (w : World) :
  run World respond (signMessageUsingWebAuthn url chainId message) w =
  match messageContentOf message with
  | Err e => (Err e, [], w)
  | Ok content =>
      let initiate :=
        fetch (url ++ "/sign-initiate")
              (postJSON (JObject [("data", JString (formatMessage content))])) in
      let (r1, w1) := respond _ initiate w in
      match r1 with
      | Err e => (Err e, [Call initiate r1], w1)
      | Ok signInitiateResponse =>
          match json signInitiateResponse with
          | Err e => (Err e, [Call initiate r1], w1)
          | Ok signInitiateResult =>
              match getProp signInitiateResult "challenge" with
              | Err e => (Err e, [Call initiate r1], w1)
              | Ok challenge_ =>
                  match getProp signInitiateResult "allowCredentials" with
                  | Err e => (Err e, [Call initiate r1], w1)
                  | Ok allowCredentials_ =>
                      let authenticate :=
                        startAuthentication
                          {| challenge := challenge_;
                             allowCredentials := allowCredentials_;
                             userVerification := "required" |} in
                      let (r2, w2) := respond _ authenticate w1 in
                      match r2 with
                      | Err e => (Err e, [Call initiate r1; Call authenticate r2], w2)
                      | Ok cred =>
                          let verify :=
                            fetch (url ++ "/sign-verify")
                                  (postJSON (JObject [("cred", toJSON cred)])) in
                          let (r3, w3) := respond _ verify w2 in
                          let log := [Call initiate r1; Call authenticate r2; Call verify r3] in
                          match r3 with
                          | Err e => (Err e, log, w3)
                          | Ok verifyResponse =>
                              match json verifyResponse with
                              | Err e => (Err e, log, w3)
                              | Ok verifyResult =>
                                  match getProp verifyResult "success" with
                                  | Err e => (Err e, log, w3)
                                  | Ok success =>
                                      if negb (truthy success)
                                      then (Err (Error "Signature not verified"), log, w3)
                                      else (encodeVerified chainId cred verifyResult, log, w3)
                                  end
                              end
                          end
                      end
                  end
              end
          end
      end
  end.
Proof.
  unfold signMessageUsingWebAuthn.
  rewrite run_lift. destruct (messageContentOf message) as [content|]; [|reflexivity].
  cbv beta zeta. rewrite run_await.
  destruct (respond _ _ w) as [[signInitiateResponse|] w1]; [|reflexivity].
  rewrite run_lift. destruct (json signInitiateResponse) as [signInitiateResult|]; [|reflexivity].
  rewrite run_lift. destruct (getProp signInitiateResult "challenge"); [|reflexivity].
  rewrite run_lift. destruct (getProp signInitiateResult "allowCredentials"); [|reflexivity].
  rewrite run_await.
  destruct (respond _ _ w1) as [[cred|] w2]; [|reflexivity].
  rewrite run_await.
  destruct (respond _ _ w2) as [[verifyResponse|] w3]; [|reflexivity].
  rewrite run_lift. destruct (json verifyResponse) as [verifyResult|]; [|reflexivity].
  rewrite run_lift. destruct (getProp verifyResult "success") as [success|]; [|reflexivity].
  destruct (negb (truthy success)); [reflexivity|].
  rewrite run_lift_last. reflexivity.
Qed.


Lemma run_signTypedData (url : string) (chainId : Z) (typedData : TypedDataDefinition)
    (w : World) :
  run World respond (signTypedDataUsingWebAuthn url chainId typedData) w =
  match validateTypedData
          {| v_domain := domain typedData;
             v_message := message typedData;
             v_primaryType := primaryType typedData;
             v_types := spread [("EIP712Domain", getTypesForEIP712Domain (domain typedData))]
                               (types typedData) |} with
  | Err e => (Err e, [], w)
  | Ok _ =>
      match hashTypedData typedData with
      | Err e => (Err e, [], w)
      | Ok hash =>
          run World respond (signMessageUsingWebAuthn url chainId (MString hash)) w
      end
  end.
Proof.
  unfold signTypedDataUsingWebAuthn. cbv zeta.
  rewrite run_lift. destruct (validateTypedData _); [|reflexivity].
  rewrite run_lift. destruct (hashTypedData typedData); reflexivity.
Qed.

(** What a successful construction fixes. *)
Lemma toWebAuthnSigner_Ok (client : Client) (params : Params.t) (w : World)
    (signer : ModularSigner) (log : list call) (w' : World) :
  run World respond (toWebAuthnSigner client params) w = (Ok signer, log, w') ->
  exists (key : WebAuthnKey) (chainId : Z),
    (Params.pubKey params = Some key /\ log = [Call (getChainId client) (Ok chainId)]
     \/ exists mode_,
          Params.pubKey params = None /\
          log = [Call (toWebAuthnPubKey (Params.passkeyName params)
                                        (Params.passkeyServerUrl params) mode_)
                      (Ok (Some key));
                 Call (getChainId client) (Ok chainId)]) /\
    (forall m, signMessage (account signer) m
               = signMessageUsingWebAuthn (Params.passkeyServerUrl params) chainId m) /\
    (forall td, signTypedData (account signer) td
                = signTypedDataUsingWebAuthn (Params.passkeyServerUrl params) chainId td) /\
    (forall a b, signTransaction (account signer) a b
                 = Throw SignTransactionNotSupportedBySmartAccount) /\
    getSignerData signer tt = getSignerDataOf (Some key) /\
    getDummySignature signer tt = getDummySignatureOf chainId.
Proof.
  unfold toWebAuthnSigner. cbv zeta. intros H.
  destruct (Params.pubKey params) as [key|] eqn:Hkey.
  - cbn [pbind] in H. rewrite run_await in H.
    destruct (respond _ _ w) as [[chainId|] w1]; [|discriminate].
    cbn [run] in H. injection H as <- <- <-.
    exists key, chainId. repeat split; auto.
  - rewrite run_await in H.
    destruct (respond _ _ w) as [[[key|]|] w1]; try discriminate.
    + rewrite run_await in H.
      destruct (respond _ _ w1) as [[chainId|] w2]; [|discriminate].
      cbn [run] in H. injection H as <- <- <-.
      exists key, chainId. repeat split; eauto.
Qed.

End Runs.
End RunFacts.

Module SignerFacts.
Import StringFacts HexFacts AbiFacts EncodeFacts LayoutFacts RunFacts.

Section Facts.

Context {utils : WebAuthnUtils} {ext : Collaborators}.
Variable World : Type.
Variable respond : forall X : Type, event X -> World -> result X * World.

(** A run that reached the verification response ends with what lines
    121-163 compute from the assertion and that response. *)
Lemma signMessage_after_verification url chainId message w out log w' cred v :
  run World respond (signMessageUsingWebAuthn url chainId message) w = (out, log, w') ->
  assertionOf log = Some cred ->
  verificationOf log = Some v ->
  (exists init resp,
      afterAssertion log = [Call (fetch (url ++ "/sign-verify") init) (Ok resp)]) /\
  out = match getProp v "success" with
        | Err e => Err e
        | Ok success =>
            if negb (truthy success) then Err (Error "Signature not verified")
            else encodeVerified chainId cred v
        end.
Proof.
  intros H Ha Hv. rewrite run_signMessage in H.
  run_cases H; injection H as <- <- <-; try discriminate.
  all: cbv [verificationOf afterAssertion isStartAuthentication jsonOfCall] in Hv;
    try discriminate.
  all: cbv [assertionOf assertionOfCall] in Ha; try discriminate.
  all: match goal with
       | E : json ?r = _ |- _ => rewrite E in Hv
       end; try discriminate.
  all: apply Some_inj in Hv; apply Some_inj in Ha; subst.
  all: split; [cbv [afterAssertion isStartAuthentication]; eauto|].
  all: match goal with
       | E : getProp _ "success" = _ |- _ => rewrite E
       end; try reflexivity.
  all: match goal with
       | E : negb _ = _ |- _ => rewrite E
       end; reflexivity.
Qed.

(** A successful run has an assertion and a verification response. *)
Lemma signMessage_Ok_reached url chainId message w sig log w' :
  run World respond (signMessageUsingWebAuthn url chainId message) w = (Ok sig, log, w') ->
  exists cred v, assertionOf log = Some cred /\ verificationOf log = Some v.
Proof.
  intros H. rewrite run_signMessage in H.
  run_cases H; injection H as H <- <-; try discriminate.
  eexists _, _. split; [reflexivity|].
  cbv [verificationOf afterAssertion isStartAuthentication jsonOfCall].
  match goal with
  | E : json ?r = _ |- _ => rewrite E
  end. reflexivity.
Qed.

(** The static fields of an encoded signature tuple, read back. *)
Lemma signature_tuple_fields (a : Hex) (c : string) (cl tl r_ s_ : Z) (p : bool) (sig : Hex) :
  encodeAbiParameters signatureParams
    [VHex a; VString c; VBigInt cl; VBigInt tl; VBigInt r_; VBigInt s_; VBoolean p] = Ok sig ->
  challengeLocation sig = Some cl /\
  responseTypeLocation sig = Some tl /\
  rOf sig = Some r_ /\
  sOf sig = Some s_ /\
  usePrecompiled sig = Some p.
Proof.
  intros H.
  unfold challengeLocation, responseTypeLocation, rOf, sOf, usePrecompiled.
  repeat split.
  - eapply encodeAbiParameters_uint256; [exact H | reflexivity | reflexivity | reflexivity].
  - eapply encodeAbiParameters_uint256; [exact H | reflexivity | reflexivity | reflexivity].
  - eapply encodeAbiParameters_uint256; [exact H | reflexivity | reflexivity | reflexivity].
  - eapply encodeAbiParameters_uint256; [exact H | reflexivity | reflexivity | reflexivity].
  - eapply encodeAbiParameters_bool; [exact H | reflexivity | reflexivity | reflexivity].
Qed.

(** What [encodeVerified] went through when it returns. *)
Lemma encodeVerified_Ok chainId cred verifyResult sig :
  encodeVerified chainId cred verifyResult = Ok sig ->
  exists authenticatorData_ authenticatorDataBytes clientDataJSON_ q signature_ signatureBytes rs,
    getProp verifyResult "authenticatorData" = Ok authenticatorData_ /\
    b64ToBytes authenticatorData_ = Ok authenticatorDataBytes /\
    atob (clientDataJSON (response cred)) = Ok clientDataJSON_ /\
    findQuoteIndices clientDataJSON_ = Ok q /\
    getProp verifyResult "signature" = Ok signature_ /\
    b64ToBytes signature_ = Ok signatureBytes /\
    parseAndNormalizeSig (uint8ArrayToHexString signatureBytes) = Ok rs /\
    encodeAbiParameters signatureParams
      [ VHex (uint8ArrayToHexString authenticatorDataBytes);
        VString clientDataJSON_;
        VBigInt (beforeChallenge q);
        VBigInt (beforeType q);
        VBigInt (r rs);
        VBigInt (s rs);
        VBoolean (isRIP7212SupportedNetwork chainId) ] = Ok sig.
Proof.
  unfold encodeVerified, BigInt. intros H.
  apply bind_Ok in H as (ad & Had & H).
  apply bind_Ok in H as (adb & Hadb & H).
  apply bind_Ok in H as (cdj & Hcdj & H).
  apply bind_Ok in H as (q & Hq & H).
  apply bind_Ok in H as (sg & Hsg & H).
  apply bind_Ok in H as (sgb & Hsgb & H).
  apply bind_Ok in H as (rs & Hrs & H).
  exists ad, adb, cdj, q, sg, sgb, rs. repeat (split; [assumption|]). exact H.
Qed.

(** A returned signature is [encodeVerified] on the assertion and the
    verification response of the log. *)
Lemma signMessage_Ok_built url chainId message w sig log w' :
  run World respond (signMessageUsingWebAuthn url chainId message) w = (Ok sig, log, w') ->
  exists cred verifyResult,
    assertionOf log = Some cred /\
    verificationOf log = Some verifyResult /\
    encodeVerified chainId cred verifyResult = Ok sig.
Proof.
  intros H.
  destruct (signMessage_Ok_reached _ _ _ _ _ _ _ H) as (cred & v & Ha & Hv).
  destruct (signMessage_after_verification _ _ _ _ _ _ _ _ _ H Ha Hv) as [_ Hout].
  destruct (getProp v "success") as [success|]; [|discriminate].
  destruct (negb (truthy success)); [discriminate|].
  exists cred, v. auto.
Qed.

(** The first call of a run is the [sign-initiate] request. *)
Lemma signMessage_first_request url chainId message content w out log w' :
  messageContentOf message = Ok content ->
  run World respond (signMessageUsingWebAuthn url chainId message) w = (out, log, w') ->
  exists settled rest,
    log = Call (fetch (url ++ "/sign-initiate")
                      (postJSON (JObject [("data", JString (formatMessage content))])))
               settled :: rest.
Proof.
  intros Hc H. rewrite run_signMessage, Hc in H.
  run_cases H; injection H as <- <- <-; eexists _, _; reflexivity.
Qed.

Lemma formatMessage_0x (digits : string) : formatMessage ("0x" ++ digits) = digits.
Proof.
  unfold formatMessage, startsWith.
  change ("0x" ++ digits)%string with (String "0" (String "x" digits)).
  cbn [String.prefix slice].
  destruct (ascii_dec "0" "0") as [_|n]; [|now elim n].
  destruct (ascii_dec "x" "x") as [_|n]; [|now elim n].
  destruct digits; reflexivity.
Qed.

Lemma hex_digits_no_prefix (digits : string) :
  isHexDigits digits = true -> startsWith digits "0x" = false.
Proof.
  unfold startsWith. destruct digits as [|c1 [|c2 rest]]; cbn [String.prefix].
  - reflexivity.
  - intros _. destruct (ascii_dec "0" c1); reflexivity.
  - change (isHexDigits (String c1 (String c2 rest)))
      with (isHexChar c1 && (isHexChar c2 && isHexDigits rest)).
    intros H. apply andb_prop in H as [_ H']. apply andb_prop in H' as [H _].
    destruct (ascii_dec "0" c1) as [_|]; [|reflexivity].
    destruct (ascii_dec "x" c2) as [<-|]; [vm_compute in H; discriminate H | reflexivity].
Qed.

Lemma signMessage_no_chain_lookup url chainId message w out log w' :
  run World respond (signMessageUsingWebAuthn url chainId message) w = (out, log, w') ->
  chainIdsOf log = [].
Proof.
  intros H. rewrite run_signMessage in H.
  run_cases H; injection H as <- <- <-; reflexivity.
Qed.

Lemma signMessage_Ok_flag url chainId message w sig log w' :
  run World respond (signMessageUsingWebAuthn url chainId message) w = (Ok sig, log, w') ->
  usePrecompiled sig = Some (isRIP7212SupportedNetwork chainId).
Proof.
  intros H.
  destruct (signMessage_Ok_built _ _ _ _ _ _ _ H) as (cred & v & _ & _ & He).
  destruct (encodeVerified_Ok _ _ _ _ He) as (? & ? & ? & ? & ? & ? & ? & Henc).
  repeat match type of Henc with
         | _ /\ ?rest => destruct Henc as [_ Henc]
         end.
  apply (signature_tuple_fields _ _ _ _ _ _ _ _ Henc).
Qed.

(** The dummy signature and its fields. *)
Lemma getDummySignatureOf_fields (chainId : Z) :
  exists dummy,
    getDummySignatureOf chainId = Ok dummy /\
    challengeLocation dummy = Some maxUint256 /\
    responseTypeLocation dummy = Some maxUint256 /\
    rOf dummy = Some 11111111111111111111111111111111111111111111111111111111111111111111111111111 /\
    sOf dummy = Some 22222222222222222222222222222222222222222222222222222222222222222222222222222 /\
    usePrecompiled dummy = Some (isRIP7212SupportedNetwork chainId) /\
    authenticatorDataOf dummy
    = Some "ffffffffffffffffffffffffffffffffffffffffffffffffffffffffffffffffffffffffff" /\
    clientDataJSONOf dummy
    = Some (replace_0x (stringToHex (quoted
        "{'type':'webauthn.get','challenge':'aaaaaaaaaaaaaaaaaaaaaaaaaaaaaaaaaaaaaaaaaaa','origin':'https://example.com'}"))).
Proof.
  unfold getDummySignatureOf.
  destruct (isRIP7212SupportedNetwork chainId).
  - eexists. split; [vm_compute; reflexivity|].
    repeat split; vm_compute; reflexivity.
  - eexists. split; [vm_compute; reflexivity|].
    repeat split; vm_compute; reflexivity.
Qed.

Lemma numberToHex_Err (v : Z) (e : exn) :
  numberToHex v = Err e -> e = IntegerOutOfRangeError.
Proof.
  unfold numberToHex. destruct (_ || _); [|discriminate].
  intros H. now injection H.
Qed.

(** [getSignerData] with a key: the two coordinates, range-checked and
    laid out as two words. *)
Lemma getSignerDataOf_eq (key : WebAuthnKey) :
  getSignerDataOf (Some key) =
  (x <- numberToHex (pubX key) ;; y <- numberToHex (pubY key) ;; Ok (concat [x; y]))%result.
Proof.
  unfold getSignerDataOf, encodeAbiParameters.
  cbn [List.length Nat.eqb negb prepareParams prepareParam type].
  unfold encodeNumber.
  destruct (numberToHex (pubX key)) as [x|]; [|reflexivity].
  destruct (numberToHex (pubY key)) as [y|]; reflexivity.
Qed.

Lemma getSignerDataOf_in_range (key : WebAuthnKey) :
  0 <= pubX key < 2 ^ 256 -> 0 <= pubY key < 2 ^ 256 ->
  exists data,
    getSignerDataOf (Some key) = Ok data /\
    uintAt 0 data = Some (pubX key) /\
    uintAt 1 data = Some (pubY key).
Proof.
  intros Hx Hy.
  assert (E : exists data, getSignerDataOf (Some key) = Ok data).
  { rewrite getSignerDataOf_eq, !numberToHex_in_range by assumption. eexists. reflexivity. }
  destruct E as [data E]. exists data. split; [exact E|].
  unfold getSignerDataOf in E.
  split; eapply encodeAbiParameters_uint256; try exact E; reflexivity.
Qed.

Lemma getSignerDataOf_outcome (key : WebAuthnKey) :
  (exists data, getSignerDataOf (Some key) = Ok data) \/
  getSignerDataOf (Some key) = Err IntegerOutOfRangeError.
Proof.
  rewrite getSignerDataOf_eq.
  destruct (numberToHex (pubX key)) as [x|e] eqn:Ex.
  - destruct (numberToHex (pubY key)) as [y|e] eqn:Ey.
    + left. eexists. reflexivity.
    + right. apply numberToHex_Err in Ey. now subst e.
  - right. apply numberToHex_Err in Ex. now subst e.
Qed.

End Facts.

End SignerFacts.

Import StringFacts HexFacts AbiFacts EncodeFacts LayoutFacts RunFacts SignerFacts.

Section Properties.

Context {utils : WebAuthnUtils} {ext : Collaborators}.

(** The environment of a run, and a second one for statements about two
    runs: the environment a signer is used in need not be the one it was
    constructed in. *)
Variable World : Type.
Variable respond : forall X : Type, event X -> World -> result X * World.
Variable World' : Type.
Variable respond' : forall X : Type, event X -> World' -> result X * World'.

(** C1. Every signature [signMessageUsingWebAuthn] returns is
    [encodeAbiParameters] applied to the seven parameters
    (authenticatorData: bytes, clientDataJSON: string, challengeLocation:
    uint256, responseTypeLocation: uint256, r: uint256, s: uint256,
    usePrecompiled: bool), in this order, and to the values: the hex of the
    decoded authenticator data of the verification response, the decoded
    client data JSON of the assertion, [beforeChallenge] and [beforeType]
    of [findQuoteIndices] on that JSON, [r] and [s] of
    [parseAndNormalizeSig], and the capability of the chain.  Read back by
    position, words 2 to 6 of the result hold the challenge offset, the
    type offset, [r], [s] and the flag; when the authenticator data is
    well-formed hex ([0x] and an even number of digits), words 0 and 1
    point to those digits and to the UTF-8 bytes of the client data
    JSON. *)
Theorem signMessage_encodes_signature_tuple url chainId message w sig log w' :
  run World respond (signMessageUsingWebAuthn url chainId message) w = (Ok sig, log, w') ->
  exists cred verifyResult authenticatorData_ authenticatorDataBytes clientDataJSON_
         q signature_ signatureBytes rs,
    assertionOf log = Some cred /\
    verificationOf log = Some verifyResult /\
    getProp verifyResult "authenticatorData" = Ok authenticatorData_ /\
    b64ToBytes authenticatorData_ = Ok authenticatorDataBytes /\
    atob (clientDataJSON (response cred)) = Ok clientDataJSON_ /\
    findQuoteIndices clientDataJSON_ = Ok q /\
    getProp verifyResult "signature" = Ok signature_ /\
    b64ToBytes signature_ = Ok signatureBytes /\
    parseAndNormalizeSig (uint8ArrayToHexString signatureBytes) = Ok rs /\
    encodeAbiParameters
      [ {| name := "authenticatorData"; type := bytes |};
        {| name := "clientDataJSON"; type := string_ |};
        {| name := "challengeLocation"; type := uint256 |};
        {| name := "responseTypeLocation"; type := uint256 |};
        {| name := "r"; type := uint256 |};
        {| name := "s"; type := uint256 |};
        {| name := "usePrecompiled"; type := bool_ |} ]
      [ VHex (uint8ArrayToHexString authenticatorDataBytes);
        VString clientDataJSON_;
        VBigInt (beforeChallenge q);
        VBigInt (beforeType q);
        VBigInt (r rs);
        VBigInt (s rs);
        VBoolean (isRIP7212SupportedNetwork chainId) ] = Ok sig /\
    challengeLocation sig = Some (beforeChallenge q) /\
    responseTypeLocation sig = Some (beforeType q) /\
    rOf sig = Some (r rs) /\
    sOf sig = Some (s rs) /\
    usePrecompiled sig = Some (isRIP7212SupportedNetwork chainId) /\
    forall digits n,
      uint8ArrayToHexString authenticatorDataBytes = ("0x" ++ digits)%string ->
      String.length digits = (2 * n)%nat ->
      authenticatorDataOf sig = Some digits /\
      clientDataJSONOf sig = Some (replace_0x (stringToHex clientDataJSON_)).
Proof.
  intros H.
  destruct (signMessage_Ok_built World respond _ _ _ _ _ _ _ H) as (cred & v & Ha & Hv & He).
  destruct (encodeVerified_Ok _ _ _ _ He)
    as (ad & adb & cdj & q & sg & sgb & rs & Had & Hadb & Hcdj & Hq & Hsg & Hsgb & Hrs & Henc).
  exists cred, v, ad, adb, cdj, q, sg, sgb, rs.
  repeat (split; [assumption|]).
  destruct (signature_tuple_fields _ _ _ _ _ _ _ _ Henc) as (F1 & F2 & F3 & F4 & F5).
  repeat (split; [assumption|]).
  intros digits n Hhex Hlen. rewrite Hhex in Henc.
  exact (signature_tuple_dynamic _ _ _ _ _ _ _ _ _ Hlen Henc).
Qed.

(** C2. When the verification response has [success: false], the run
    ends with [Error "Signature not verified"] (the spec's
    ServerSignatureRejected); the verification request is the last call
    of the log; and the outcome is the same whatever the helpers are,
    which is to say that none of them ran. *)
Theorem signMessage_rejected_verification url chainId message w out log w' verifyResult :
  run World respond (signMessageUsingWebAuthn url chainId message) w = (out, log, w') ->
  verificationOf log = Some verifyResult ->
  getProp verifyResult "success" = Ok (JBool false) ->
  out = Err (Error "Signature not verified") /\
  (exists init resp,
      afterAssertion log = [Call (fetch (url ++ "/sign-verify") init) (Ok resp)]) /\
  forall (utils' : WebAuthnUtils) (ext' : Collaborators) (chainId' : Z),
    run World respond (@signMessageUsingWebAuthn utils' ext' url chainId' message) w
    = (out, log, w').
Proof.
  intros H Hv Hs. rewrite run_signMessage in H.
  run_cases H; injection H as <- <- <-.
  all: cbv [verificationOf afterAssertion isStartAuthentication jsonOfCall] in Hv;
    try discriminate.
  all: match goal with
       | E : json ?r = _ |- _ => rewrite E in Hv
       end; try discriminate.
  all: apply Some_inj in Hv; subst.
  all: try congruence.
  - split; [reflexivity|].
    split; [cbv [afterAssertion isStartAuthentication]; eauto|].
    intros utils' ext' chainId'. rewrite run_signMessage. cbv zeta.
    repeat match goal with
           | E : ?x = _ |- context [match ?x with _ => _ end] => rewrite E
           end.
    reflexivity.
  - exfalso.
    match goal with
    | E : getProp _ "success" = Ok ?j, N : negb (truthy ?j) = false |- _ =>
        rewrite Hs in E; apply Ok_inj in E; subst j; discriminate N
    end.
Qed.

(** C3, as the code has it.  The first call of a run is the
    [sign-initiate] request.  The run fails there, before the
    authenticator is invoked, when the request is rejected (a network
    failure), when the body of the response cannot be read as JSON, or
    when the body is [null]; the error is the one raised at that point.
    The status of the response is not inspected: whenever the body is
    read, the authenticator is invoked next, with the [challenge] and
    [allowCredentials] of that body. *)
Theorem sign_initiate_failure_modes url chainId message content w out log w' :
  messageContentOf message = Ok content ->
  run World respond (signMessageUsingWebAuthn url chainId message) w = (out, log, w') ->
  exists settled rest,
    log = Call (fetch (url ++ "/sign-initiate")
                      (postJSON (JObject [("data", JString (formatMessage content))])))
               settled :: rest /\
    match settled with
    | Err e => out = Err e /\ rest = []
    | Ok signInitiateResponse =>
        match json signInitiateResponse with
        | Err e => out = Err e /\ rest = []
        | Ok signInitiateResult =>
            match getProp signInitiateResult "challenge",
                  getProp signInitiateResult "allowCredentials" with
            | Ok challenge_, Ok allowCredentials_ =>
                exists settled' rest',
                  rest = Call (startAuthentication
                                 {| challenge := challenge_;
                                    allowCredentials := allowCredentials_;
                                    userVerification := "required" |})
                              settled' :: rest'
            | Err e, _ => out = Err e /\ rest = []
            | _, Err e => out = Err e /\ rest = []
            end
        end
    end.
Proof.
  intros Hc H. rewrite run_signMessage, Hc in H.
  run_cases H; injection H as <- <- <-; eexists _, _; (split; [reflexivity|]); cbv beta iota.
  all: repeat match goal with
              | E : ?x = _ |- context [match ?x with _ => _ end] => rewrite E
              end.
  all: eauto.
Qed.

(** C5, as the code has it.  For a plain string and for a string [raw]
    field, the [data] of the [sign-initiate] body is that string with one
    leading [0x] removed when it has one, and unchanged otherwise.  When
    the string is [0x] followed by hexadecimal digits, [data] is those
    digits and has no [0x] prefix. *)
Theorem string_message_prefix_stripped url chainId message m w out log w' :
  message = MString m \/ message = MRaw (RawHex m) ->
  run World respond (signMessageUsingWebAuthn url chainId message) w = (out, log, w') ->
  hd_error (requestBodies log)
  = Some (JObject [("data", JString (if startsWith m "0x" then slice 2 m else m))]) /\
  forall digits, m = ("0x" ++ digits)%string -> isHexDigits digits = true ->
    hd_error (requestBodies log) = Some (JObject [("data", JString digits)]) /\
    startsWith digits "0x" = false.
Proof.
  intros Hm H.
  assert (Hc : messageContentOf message = Ok m) by (destruct Hm; subst; reflexivity).
  destruct (signMessage_first_request World respond _ _ _ _ _ _ _ _ Hc H)
    as (settled & rest & ->).
  split; [reflexivity|].
  intros digits -> Hd. split; [|now apply hex_digits_no_prefix].
  cbn [requestBodies flat_map requestBody body postJSON app hd_error].
  now rewrite formatMessage_0x.
Qed.

(** C8. The outcome of a run that obtained an assertion and a
    verification response is a function of the assertion, the response
    and the chain id: two runs that agree on these three, whatever their
    messages, server URLs, environments and earlier calls, end with the
    same encoded signature, or with the same error. *)
Theorem encoding_determined_by_assertion_verification_chain
    url1 url2 chainId message1 message2 w1 w2 out1 out2 log1 log2 w1' w2' cred verifyResult :
  run World respond (signMessageUsingWebAuthn url1 chainId message1) w1 = (out1, log1, w1') ->
  run World' respond' (signMessageUsingWebAuthn url2 chainId message2) w2 = (out2, log2, w2') ->
  assertionOf log1 = Some cred -> assertionOf log2 = Some cred ->
  verificationOf log1 = Some verifyResult -> verificationOf log2 = Some verifyResult ->
  out1 = out2.
Proof.
  intros H1 H2 Ha1 Ha2 Hv1 Hv2.
  destruct (signMessage_after_verification World respond _ _ _ _ _ _ _ _ _ H1 Ha1 Hv1)
    as [_ ->].
  destruct (signMessage_after_verification World' respond' _ _ _ _ _ _ _ _ _ H2 Ha2 Hv2)
    as [_ ->].
  reflexivity.
Qed.

(** C4, as the code has it.  The dummy signature of a constructed signer
    is an encoded signature whose two location fields are the maximum
    uint256, whose [r] is 77 digits 1 and whose [s] is 77 digits 2, both
    below the maximum, and whose authenticator data (37 bytes [ff]) and
    client data JSON are fixed placeholders. *)
Theorem getDummySignature_fields client params w signer log w' :
  run World respond (toWebAuthnSigner client params) w = (Ok signer, log, w') ->
  exists dummy,
    getDummySignature signer tt = Ok dummy /\
    challengeLocation dummy = Some maxUint256 /\
    responseTypeLocation dummy = Some maxUint256 /\
    rOf dummy = Some 11111111111111111111111111111111111111111111111111111111111111111111111111111 /\
    sOf dummy = Some 22222222222222222222222222222222222222222222222222222222222222222222222222222 /\
    11111111111111111111111111111111111111111111111111111111111111111111111111111 < maxUint256 /\
    22222222222222222222222222222222222222222222222222222222222222222222222222222 < maxUint256 /\
    authenticatorDataOf dummy
    = Some "ffffffffffffffffffffffffffffffffffffffffffffffffffffffffffffffffffffffffff" /\
    clientDataJSONOf dummy
    = Some (replace_0x (stringToHex (quoted
        "{'type':'webauthn.get','challenge':'aaaaaaaaaaaaaaaaaaaaaaaaaaaaaaaaaaaaaaaaaaa','origin':'https://example.com'}"))).
Proof.
  intros H.
  destruct (toWebAuthnSigner_Ok World respond _ _ _ _ _ _ H)
    as (key & chainId & _ & _ & _ & _ & _ & Hd).
  destruct (getDummySignatureOf_fields chainId)
    as (dummy & E & F1 & F2 & F3 & F4 & _ & F6 & F7).
  exists dummy. rewrite Hd.
  repeat (split; [assumption|]).
  split; [reflexivity|]. split; [reflexivity|]. split; assumption.
Qed.

(** C6. For the chain id a signer was constructed with, the dummy
    signature and every signature [signMessage] returns carry the same
    [usePrecompiled] field, the value of [isRIP7212SupportedNetwork] on
    that chain id. *)
Theorem dummy_and_real_usePrecompiled_agree client params w0 signer log0 w1 :
  run World respond (toWebAuthnSigner client params) w0 = (Ok signer, log0, w1) ->
  exists chainId dummy,
    chainIdsOf log0 = [Ok chainId] /\
    getDummySignature signer tt = Ok dummy /\
    usePrecompiled dummy = Some (isRIP7212SupportedNetwork chainId) /\
    forall message w sig log w',
      run World' respond' (signMessage (account signer) message) w = (Ok sig, log, w') ->
      usePrecompiled sig = Some (isRIP7212SupportedNetwork chainId) /\
      usePrecompiled sig = usePrecompiled dummy.
Proof.
  intros H.
  destruct (toWebAuthnSigner_Ok World respond _ _ _ _ _ _ H)
    as (key & chainId & Hlog & Hm & _ & _ & _ & Hd).
  destruct (getDummySignatureOf_fields chainId)
    as (dummy & E & _ & _ & _ & _ & F & _).
  exists chainId, dummy. rewrite Hd.
  split.
  { destruct Hlog as [[_ ->] | (mode_ & _ & ->)]; reflexivity. }
  split; [assumption|]. split; [assumption|].
  intros message w sig log w' Hrun. rewrite Hm in Hrun.
  apply (signMessage_Ok_flag World' respond') in Hrun. rewrite F. auto.
Qed.

(** C7. When [validateTypedData] rejects the typed data, [signTypedData]
    fails with that error and the log of the run is empty: no request is
    sent, the authenticator is not invoked, and the environment is left
    as it was. *)
Theorem signTypedData_invalid_before_network client params w0 signer log0 w1 typedData e :
  run World respond (toWebAuthnSigner client params) w0 = (Ok signer, log0, w1) ->
  validateTypedData
    {| v_domain := domain typedData;
       v_message := message typedData;
       v_primaryType := primaryType typedData;
       v_types := spread [("EIP712Domain", getTypesForEIP712Domain (domain typedData))]
                         (types typedData) |} = Err e ->
  forall w, run World' respond' (signTypedData (account signer) typedData) w = (Err e, [], w).
Proof.
  intros H Hv w.
  destruct (toWebAuthnSigner_Ok World respond _ _ _ _ _ _ H)
    as (key & chainId & _ & _ & Htd & _).
  rewrite Htd, run_signTypedData, Hv. reflexivity.
Qed.

(** C9, as the code has it.  A constructed signer holds a key: the one
    given in the parameters or, when none was given, the one the
    provisioning call returned.  [getSignerData] never takes the
    missing-key branch: it is [encodeAbiParameters] on the two
    coordinates of that key.  When both coordinates are uint256 values it
    returns two words that read back as [pubX] and [pubY]; otherwise the
    range check of the encoder rejects the key. *)
Theorem getSignerData_of_constructed client params w0 signer log0 w1 :
  run World respond (toWebAuthnSigner client params) w0 = (Ok signer, log0, w1) ->
  exists key,
    (Params.pubKey params = Some key /\ provisionedOf log0 = [] \/
     Params.pubKey params = None /\ provisionedOf log0 = [Ok (Some key)]) /\
    getSignerData signer tt <> Err (Error "WebAuthn public key not found") /\
    getSignerData signer tt
    = encodeAbiParameters
        [ {| name := "pubX"; type := uint256 |}; {| name := "pubY"; type := uint256 |} ]
        [ VBigInt (pubX key); VBigInt (pubY key) ] /\
    ((exists data, getSignerData signer tt = Ok data) \/
     getSignerData signer tt = Err IntegerOutOfRangeError) /\
    (0 <= pubX key < 2 ^ 256 -> 0 <= pubY key < 2 ^ 256 ->
     exists data,
       getSignerData signer tt = Ok data /\
       uintAt 0 data = Some (pubX key) /\
       uintAt 1 data = Some (pubY key)).
Proof.
  intros H.
  destruct (toWebAuthnSigner_Ok World respond _ _ _ _ _ _ H)
    as (key & chainId & Hlog & _ & _ & _ & Hs & _).
  exists key. rewrite Hs.
  split.
  { destruct Hlog as [[Hk ->] | (mode_ & Hk & ->)]; [left | right]; now split. }
  split.
  { destruct (getSignerDataOf_outcome key) as [[data E] | E]; rewrite E; discriminate. }
  split; [reflexivity|].
  split; [apply getSignerDataOf_outcome | apply getSignerDataOf_in_range].
Qed.

(** C10. Constructing a signer asks for the chain id once.  Afterwards,
    in any environment, whatever chain it reports by then: no run of
    [signMessage] or [signTypedData] asks for the chain id, and the dummy
    signature and every signature these two return carry the
    [usePrecompiled] value of the chain id obtained at construction. *)
Theorem chainId_resolved_once_at_construction client params w0 signer log0 w1 :
  run World respond (toWebAuthnSigner client params) w0 = (Ok signer, log0, w1) ->
  exists chainId,
    chainIdsOf log0 = [Ok chainId] /\
    (exists dummy,
        getDummySignature signer tt = Ok dummy /\
        usePrecompiled dummy = Some (isRIP7212SupportedNetwork chainId)) /\
    (forall message w out log w',
        run World' respond' (signMessage (account signer) message) w = (out, log, w') ->
        chainIdsOf log = [] /\
        forall sig, out = Ok sig ->
          usePrecompiled sig = Some (isRIP7212SupportedNetwork chainId)) /\
    (forall typedData w out log w',
        run World' respond' (signTypedData (account signer) typedData) w = (out, log, w') ->
        chainIdsOf log = [] /\
        forall sig, out = Ok sig ->
          usePrecompiled sig = Some (isRIP7212SupportedNetwork chainId)).
Proof.
  intros H.
  destruct (toWebAuthnSigner_Ok World respond _ _ _ _ _ _ H)
    as (key & chainId & Hlog & Hm & Htd & _ & _ & Hd).
  exists chainId.
  split.
  { destruct Hlog as [[_ ->] | (mode_ & _ & ->)]; reflexivity. }
  split.
  { destruct (getDummySignatureOf_fields chainId) as (dummy & E & _ & _ & _ & _ & F & _).
    exists dummy. rewrite Hd. auto. }
  split.
  - intros message w out log w' Hrun. rewrite Hm in Hrun.
    split; [eapply signMessage_no_chain_lookup; eauto|].
    intros sig ->. eapply signMessage_Ok_flag; eauto.
  - intros typedData w out log w' Hrun. rewrite Htd, run_signTypedData in Hrun.
    destruct (validateTypedData _).
    + destruct (hashTypedData typedData).
      * split; [eapply signMessage_no_chain_lookup; eauto|].
        intros sig ->. eapply signMessage_Ok_flag; eauto.
      * injection Hrun as <- <- <-. split; [reflexivity | discriminate].
    + injection Hrun as <- <- <-. split; [reflexivity | discriminate].
Qed.

End Properties.

(* ===================================================================== *)
(** ** The properties on the reference environment *)
(* ===================================================================== *)

Module OnDemo.
Import Demo.

Lemma signMessage_encodes_signature_tuple_witness :
  exists sig log w',
    run Script respond (signMessageUsingWebAuthn url 1 (MString "0x48656c6c6f")) happy
    = (Ok sig, log, w') /\
    challengeLocation sig = Some 36 /\
    responseTypeLocation sig = Some 9 /\
    rOf sig = Some 8234104122482341265491137074636836252947884782870784360943022469005013929455 /\
    sOf sig = Some 7204841108099674388188185247038372813483773006471428043138298651178788069357 /\
    usePrecompiled sig = Some false /\
    authenticatorDataOf sig
    = Some "0102030405060708090a0b0c0d0e0f101112131415161718191a1b1c1d1e1f202122232425" /\
    clientDataJSONOf sig
    = Some (replace_0x (stringToHex (quoted
        "{'type':'webauthn.get','challenge':'SGVsbG8','origin':'https://example.com'}"))).
Proof.
  eassert (H : run Script respond (signMessageUsingWebAuthn url 1 (MString "0x48656c6c6f")) happy
               = (Ok _, _, _)) by (vm_compute; reflexivity).
  eexists _, _, _. split; [exact H|].
  destruct (signMessage_encodes_signature_tuple Script respond _ _ _ _ _ _ _ H)
    as (cred & v & ad & adb & cdj & q & sg & sgb & rs
        & Ha & Hv & Had & Hadb & Hcdj & Hq & Hsg & Hsgb & Hrs & He
        & F1 & F2 & F3 & F4 & F5 & Fdyn).
  vm_compute in Ha. apply Some_inj in Ha. subst cred.
  vm_compute in Hv. apply Some_inj in Hv. subst v.
  vm_compute in Had. apply Ok_inj in Had. subst ad.
  vm_compute in Hadb. apply Ok_inj in Hadb. subst adb.
  vm_compute in Hcdj. apply Ok_inj in Hcdj. subst cdj.
  vm_compute in Hq. apply Ok_inj in Hq. subst q.
  vm_compute in Hsg. apply Ok_inj in Hsg. subst sg.
  vm_compute in Hsgb. apply Ok_inj in Hsgb. subst sgb.
  vm_compute in Hrs. apply Ok_inj in Hrs. subst rs.
  split; [exact F1|]. split; [exact F2|]. split; [exact F3|]. split; [exact F4|].
  split; [exact F5|].
  exact (Fdyn "0102030405060708090a0b0c0d0e0f101112131415161718191a1b1c1d1e1f202122232425"
              37%nat eq_refl eq_refl).
Defined.

Lemma signMessage_rejected_verification_witness :
  exists log w',
    run Script respond (signMessageUsingWebAuthn url 1 (MString "0x48656c6c6f")) refused
    = (Err (Error "Signature not verified"), log, w') /\
    verificationOf log = Some (verifiedBody false) /\
    getProp (verifiedBody false) "success" = Ok (JBool false) /\
    forall (utils' : WebAuthnUtils) (ext' : Collaborators) (chainId' : Z),
      run Script respond
          (@signMessageUsingWebAuthn utils' ext' url chainId' (MString "0x48656c6c6f")) refused
      = (Err (Error "Signature not verified"), log, w').
Proof.
  eassert (H : run Script respond (signMessageUsingWebAuthn url 1 (MString "0x48656c6c6f")) refused
               = (_, _, _)) by (vm_compute; reflexivity).
  assert (Hs : getProp (verifiedBody false) "success" = Ok (JBool false)) by reflexivity.
  eexists _, _.
  destruct (signMessage_rejected_verification Script respond _ _ _ _ _ _ _ _ H eq_refl Hs)
    as (Hout & _ & Hany).
  split; [exact H|]. split; [reflexivity|]. split; [exact Hs | exact Hany].
Defined.


(** C3 is false as stated: [sign-initiate] answers with status 500, and the
    run goes on to the authenticator, with an undefined challenge, and ends
    with a signature. *)
Lemma sign_initiate_http_error_proceeds :
  exists resp sig log w',
    signInitiate initiateFails = Ok resp /\
    ok resp = false /\
    status resp = 500 /\
    run Script respond (signMessageUsingWebAuthn url 1 (MString "0x48656c6c6f")) initiateFails
    = (Ok sig, log, w') /\
    existsb isStartAuthentication log = true.
Proof.
  eexists _, _, _, _.
  split; [reflexivity|]. split; [reflexivity|]. split; [reflexivity|].
  split; vm_compute; reflexivity.
Defined.

Lemma sign_initiate_failure_modes_witness :
  exists out log w',
    messageContentOf (MString "0x48656c6c6f") = Ok "0x48656c6c6f" /\
    run Script respond (signMessageUsingWebAuthn url 1 (MString "0x48656c6c6f")) offline
    = (out, log, w') /\
    exists settled rest,
      log = Call (fetch (url ++ "/sign-initiate")
                        (postJSON (JObject [("data", JString "48656c6c6f")])))
                 settled :: rest /\
      match settled with
      | Err e => out = Err e /\ rest = []
      | Ok _ => True
      end.
Proof.
  eassert (H : run Script respond (signMessageUsingWebAuthn url 1 (MString "0x48656c6c6f")) offline
               = (_, _, _)) by (vm_compute; reflexivity).
  eexists _, _, _. split; [reflexivity|]. split; [exact H|].
  destruct (sign_initiate_failure_modes Script respond url 1 (MString "0x48656c6c6f")
              "0x48656c6c6f" _ _ _ _ eq_refl H)
    as (settled & rest & Hlog & Hm).
  exists settled, rest. split; [exact Hlog|].
  destruct settled; [exact I | exact Hm].
Defined.

(** C4 is false as stated: [r] and [s] of the dummy signature are not the
    maximum uint256. *)
Lemma dummy_r_s_below_max :
  exists signer log w' dummy,
    run Script respond (toWebAuthnSigner demoClient demoParams) happy = (Ok signer, log, w') /\
    getDummySignature signer tt = Ok dummy /\
    rOf dummy = Some 11111111111111111111111111111111111111111111111111111111111111111111111111111 /\
    sOf dummy = Some 22222222222222222222222222222222222222222222222222222222222222222222222222222 /\
    rOf dummy <> Some maxUint256 /\
    sOf dummy <> Some maxUint256.
Proof.
  eexists _, _, _, _.
  split; [reflexivity|].
  split; [vm_compute; reflexivity|].
  split; [vm_compute; reflexivity|].
  split; [vm_compute; reflexivity|].
  split; vm_compute; discriminate.
Defined.

Lemma getDummySignature_fields_witness :
  exists signer log w' dummy,
    run Script respond (toWebAuthnSigner demoClient demoParams) happy = (Ok signer, log, w') /\
    getDummySignature signer tt = Ok dummy /\
    challengeLocation dummy = Some maxUint256 /\
    responseTypeLocation dummy = Some maxUint256.
Proof.
  eassert (H : run Script respond (toWebAuthnSigner demoClient demoParams) happy = (Ok _, _, _))
    by reflexivity.
  destruct (getDummySignature_fields Script respond _ _ _ _ _ _ H)
    as (dummy & Hd & F1 & F2 & _).
  eexists _, _, _, dummy. split; [exact H|]. auto.
Defined.


(** C5 is false as stated: a plain string is submitted as it is, and a
    byte array as the decimal values of its bytes separated by commas;
    neither is hexadecimal text. *)
Lemma submitted_data_not_hexadecimal :
  (exists out log w',
      run Script respond (signMessageUsingWebAuthn url 1 (MString "hello world")) happy
      = (out, log, w') /\
      hd_error (requestBodies log) = Some (JObject [("data", JString "hello world")]) /\
      isHexDigits "hello world" = false) /\
  (exists out log w',
      run Script respond
          (signMessageUsingWebAuthn url 1
             (MRaw (RawByteArray [Byte.x48; Byte.x65; Byte.x6c; Byte.x6c; Byte.x6f]))) happy
      = (out, log, w') /\
      hd_error (requestBodies log) = Some (JObject [("data", JString "72,101,108,108,111")]) /\
      isHexDigits "72,101,108,108,111" = false).
Proof.
  split; eexists _, _, _.
  - split; [vm_compute; reflexivity|]. split; vm_compute; reflexivity.
  - split; [vm_compute; reflexivity|]. split; vm_compute; reflexivity.
Defined.

Lemma string_message_prefix_stripped_witness :
  exists out log w',
    (MRaw (RawHex "0x48656c6c6f") = MString "0x48656c6c6f" \/
     MRaw (RawHex "0x48656c6c6f") = MRaw (RawHex "0x48656c6c6f")) /\
    run Script respond (signMessageUsingWebAuthn url 1 (MRaw (RawHex "0x48656c6c6f"))) happy
    = (out, log, w') /\
    hd_error (requestBodies log) = Some (JObject [("data", JString "48656c6c6f")]) /\
    startsWith "48656c6c6f" "0x" = false.
Proof.
  eassert (H : run Script respond
                   (signMessageUsingWebAuthn url 1 (MRaw (RawHex "0x48656c6c6f"))) happy
               = (_, _, _)) by (vm_compute; reflexivity).
  eexists _, _, _. split; [right; reflexivity|]. split; [exact H|].
  destruct (string_message_prefix_stripped Script respond url 1 _ "0x48656c6c6f" _ _ _ _
              (or_intror eq_refl) H) as [_ Hd].
  exact (Hd "48656c6c6f" eq_refl eq_refl).
Defined.

Lemma dummy_and_real_usePrecompiled_agree_witness :
  exists signer log0 w1 dummy,
    run Script respond (toWebAuthnSigner demoClient demoParams) happy = (Ok signer, log0, w1) /\
    getDummySignature signer tt = Ok dummy /\
    usePrecompiled dummy = Some false /\
    exists sig log w',
      run Script respond (signMessage (account signer) (MString "0x48656c6c6f")) w1
      = (Ok sig, log, w') /\
      usePrecompiled sig = usePrecompiled dummy.
Proof.
  eassert (H : run Script respond (toWebAuthnSigner demoClient demoParams) happy = (Ok _, _, _))
    by reflexivity.
  destruct (dummy_and_real_usePrecompiled_agree Script respond Script respond _ _ _ _ _ _ H)
    as (chainId & dummy & Hc & Hd & Hf & Hall).
  vm_compute in Hc. injection Hc as <-.
  eexists _, _, _, dummy. split; [exact H|]. split; [exact Hd|]. split; [exact Hf|].
  match goal with
  | |- exists sig log w', ?r = _ /\ _ =>
      eassert (Hrun : r = (Ok _, _, _)) by (vm_compute; reflexivity)
  end.
  eexists _, _, _. split; [exact Hrun | exact (proj2 (Hall _ _ _ _ _ Hrun))].
Defined.

Lemma signTypedData_invalid_before_network_witness :
  exists signer log0 w1,
    run Script respond (toWebAuthnSigner demoClient demoParams) happy = (Ok signer, log0, w1) /\
    validateTypedData
      {| v_domain := domain badTypedData;
         v_message := message badTypedData;
         v_primaryType := primaryType badTypedData;
         v_types := spread [("EIP712Domain", getTypesForEIP712Domain (domain badTypedData))]
                           (types badTypedData) |}
    = Err (Rejected "validateTypedData" "InvalidTypedData") /\
    run Script respond (signTypedData (account signer) badTypedData) w1
    = (Err (Rejected "validateTypedData" "InvalidTypedData"), [], w1).
Proof.
  eassert (H : run Script respond (toWebAuthnSigner demoClient demoParams) happy = (Ok _, _, _))
    by reflexivity.
  eexists _, _, _. split; [exact H|]. split; [reflexivity|].
  exact (signTypedData_invalid_before_network Script respond Script respond
           _ _ _ _ _ _ badTypedData _ H eq_refl _).
Defined.

Lemma encoding_determined_by_assertion_verification_chain_witness :
  exists out1 log1 w1 out2 log2 w2,
    run Script respond (signMessageUsingWebAuthn url 1 (MString "0x48656c6c6f")) happy
    = (out1, log1, w1) /\
    run Script respond
        (signMessageUsingWebAuthn "https://other.example" 1 (MRaw (RawHex "0xabcdef"))) moving
    = (out2, log2, w2) /\
    assertionOf log1 = Some demoCred /\ assertionOf log2 = Some demoCred /\
    verificationOf log1 = Some (verifiedBody true) /\
    verificationOf log2 = Some (verifiedBody true) /\
    out1 = out2.
Proof.
  eassert (H1 : run Script respond (signMessageUsingWebAuthn url 1 (MString "0x48656c6c6f")) happy
                = (_, _, _)) by (vm_compute; reflexivity).
  eassert (H2 : run Script respond
                    (signMessageUsingWebAuthn "https://other.example" 1
                       (MRaw (RawHex "0xabcdef"))) moving
                = (_, _, _)) by (vm_compute; reflexivity).
  eexists _, _, _, _, _, _.
  split; [exact H1|]. split; [exact H2|].
  repeat (split; [reflexivity|]).
  exact (encoding_determined_by_assertion_verification_chain Script respond Script respond
           _ _ _ _ _ _ _ _ _ _ _ _ _ demoCred (verifiedBody true)
           H1 H2 eq_refl eq_refl eq_refl eq_refl).
Defined.

(** C9 is false as stated: a signer is constructed with a key whose first
    coordinate is negative, and [getSignerData] fails in the encoder. *)
Lemma getSignerData_rejects_out_of_range_key :
  exists signer log w',
    run Script respond (toWebAuthnSigner demoClient outOfRangeParams) happy
    = (Ok signer, log, w') /\
    getSignerData signer tt = Err IntegerOutOfRangeError.
Proof.
  eexists _, _, _. split; [reflexivity | vm_compute; reflexivity].
Defined.

Lemma getSignerData_of_constructed_witness :
  exists signer log w' data,
    run Script respond (toWebAuthnSigner demoClient suppliedKeyParams) happy
    = (Ok signer, log, w') /\
    getSignerData signer tt = Ok data /\
    uintAt 0 data = Some 7 /\
    uintAt 1 data = Some 11.
Proof.
  eassert (H : run Script respond (toWebAuthnSigner demoClient suppliedKeyParams) happy
               = (Ok _, _, _)) by reflexivity.
  destruct (getSignerData_of_constructed Script respond _ _ _ _ _ _ H)
    as (key & Hkey & _ & _ & _ & Hrange).
  destruct Hkey as [[Hk _] | [Hk _]]; [|discriminate Hk].
  cbn [Params.pubKey suppliedKeyParams] in Hk. apply Some_inj in Hk. subst key.
  destruct Hrange as (data & Hd & F0 & F1); [cbn; lia | cbn; lia |].
  eexists _, _, _, data. split; [exact H|]. auto.
Defined.

Lemma chainId_resolved_once_at_construction_witness :
  exists signer log0 w1,
    run Script respond (toWebAuthnSigner demoClient demoParams) moving = (Ok signer, log0, w1) /\
    chainIdsOf log0 = [Ok 1] /\
    fst (respond Z (getChainId demoClient) w1) = Ok 80001 /\
    exists sig log w',
      run Script respond (signMessage (account signer) (MString "0x48656c6c6f")) w1
      = (Ok sig, log, w') /\
      chainIdsOf log = [] /\
      usePrecompiled sig = Some false.
Proof.
  eassert (H : run Script respond (toWebAuthnSigner demoClient demoParams) moving = (Ok _, _, _))
    by reflexivity.
  destruct (chainId_resolved_once_at_construction Script respond Script respond _ _ _ _ _ _ H)
    as (chainId & Hc & _ & Hm & _).
  vm_compute in Hc. injection Hc as <-.
  eexists _, _, _. split; [exact H|]. split; [reflexivity|]. split; [reflexivity|].
  match goal with
  | |- exists sig log w', ?r = _ /\ _ =>
      eassert (Hrun : r = (Ok _, _, _)) by (vm_compute; reflexivity)
  end.
  destruct (Hm _ _ _ _ _ Hrun) as [Hn Hf].
  eexists _, _, _. split; [exact Hrun|]. split; [exact Hn | exact (Hf _ eq_refl)].
Defined.

End OnDemo.

(* ===================================================================== *)
(** ** Further properties of the signer *)
(* ===================================================================== *)

Section Requests.

Context {utils : WebAuthnUtils} {ext : Collaborators}.
Variable World : Type.
Variable respond : forall X : Type, event X -> World -> result X * World.

(** X1. A run sends the [sign-initiate] request, and sends the
    [sign-verify] request exactly when the authenticator returned an
    assertion, with that assertion as its body.  Both are JSON POSTs with
    credentials included, to the two endpoints of the passkey server;
    nothing else is requested. *)
Theorem signMessage_requests url chainId message content w out log w' :
  messageContentOf message = Ok content ->
  run World respond (signMessageUsingWebAuthn url chainId message) w = (out, log, w') ->
  let initiate :=
    (url ++ "/sign-initiate",
     {| method := "POST";
        headers := [("Content-Type", "application/json")];
        body := JSON_stringify (JObject [("data", JString (formatMessage content))]);
        credentials := "include" |})%string in
  (assertionOf log = None /\ requestsOf log = [initiate]) \/
  (exists cred,
      assertionOf log = Some cred /\
      requestsOf log =
      [ initiate;
        (url ++ "/sign-verify",
         {| method := "POST";
            headers := [("Content-Type", "application/json")];
            body := JSON_stringify (JObject [("cred", toJSON cred)]);
            credentials := "include" |})%string ]).
Proof.
  intros Hc H. rewrite run_signMessage, Hc in H.
  run_cases H; injection H as <- <- <-; cbv zeta.
  all: try (left; split; reflexivity).
  all: right; eexists; split; reflexivity.
Qed.

(** X2. The authenticator is prompted at most once in a run, with user
    verification required.  When it rejects, the run fails with its error
    and only the [sign-initiate] request was sent; when it returns, the
    [sign-verify] request follows. *)
Theorem authenticator_prompted_at_most_once url chainId message w out log w' :
  run World respond (signMessageUsingWebAuthn url chainId message) w = (out, log, w') ->
  promptsOf log = [] \/
  exists options settled,
    promptsOf log = [(options, settled)] /\
    userVerification options = "required" /\
    match settled with
    | Err e => out = Err e /\ List.length (requestsOf log) = 1%nat
    | Ok _ => List.length (requestsOf log) = 2%nat
    end.
Proof.
  intros H. rewrite run_signMessage in H.
  run_cases H; injection H as <- <- <-.
  all: try (left; reflexivity).
  all: right; eexists _, _; split; [reflexivity|]; split; [reflexivity|]; cbv beta iota;
    auto.
Qed.


(** X4. A signature is returned only after the server approved: the log
    of a run that returns one holds a verification response whose
    [success] is truthy. *)
Theorem signature_requires_server_approval url chainId message w sig log w' :
  run World respond (signMessageUsingWebAuthn url chainId message) w = (Ok sig, log, w') ->
  exists verifyResult success,
    verificationOf log = Some verifyResult /\
    getProp verifyResult "success" = Ok success /\
    truthy success = true.
Proof.
  intros H. rewrite run_signMessage in H.
  run_cases H; injection H as H <- <-; try discriminate.
  eexists _, _. split.
  - cbv [verificationOf afterAssertion isStartAuthentication jsonOfCall].
    match goal with
    | E : json ?r = _ |- context [json ?r] => rewrite E
    end. reflexivity.
  - split; [eassumption|].
    match goal with
    | N : negb (truthy ?s) = false |- _ => destruct (truthy s); [reflexivity | discriminate N]
    end.
Qed.

(** X5. Any falsy [success] is a refusal: when the verification response
    has no [success] property, or has it [null], [0], the empty string or
    [false], the run ends with [Error "Signature not verified"]. *)
Theorem falsy_success_is_refusal url chainId message w out log w' verifyResult success :
  run World respond (signMessageUsingWebAuthn url chainId message) w = (out, log, w') ->
  verificationOf log = Some verifyResult ->
  getProp verifyResult "success" = Ok success ->
  truthy success = false ->
  out = Err (Error "Signature not verified").
Proof.
  intros H Hv Hs Ht.
  assert (Ha : exists cred, assertionOf log = Some cred).
  { rewrite run_signMessage in H.
    run_cases H; injection H as <- <- <-;
      cbv [verificationOf afterAssertion isStartAuthentication] in Hv; try discriminate.
    all: eexists; reflexivity. }
  destruct Ha as [cred Ha].
  destruct (signMessage_after_verification World respond _ _ _ _ _ _ _ _ _ H Ha Hv) as [_ ->].
  now rewrite Hs, Ht.
Qed.

End Requests.

Section Construction.

Context {utils : WebAuthnUtils} {ext : Collaborators}.
Variable World : Type.
Variable respond : forall X : Type, event X -> World -> result X * World.
Variable World' : Type.
Variable respond' : forall X : Type, event X -> World' -> result X * World'.

(** X6. Once validation passed, [signTypedData] is [signMessage] on the
    hash: when [hashTypedData] returns a hash, the two runs coincide, call
    for call, and the [data] submitted is that hash without its [0x];
    when hashing throws, the run fails with that error before any call. *)
Theorem signTypedData_is_signMessage_of_hash client params w0 signer log0 w1 typedData u :
  run World respond (toWebAuthnSigner client params) w0 = (Ok signer, log0, w1) ->
  validateTypedData
    {| v_domain := domain typedData;
       v_message := message typedData;
       v_primaryType := primaryType typedData;
       v_types := spread [("EIP712Domain", getTypesForEIP712Domain (domain typedData))]
                         (types typedData) |} = Ok u ->
  forall w,
    match hashTypedData typedData with
    | Ok hash =>
        run World' respond' (signTypedData (account signer) typedData) w
        = run World' respond' (signMessage (account signer) (MString hash)) w /\
        hd_error (requestBodies
                    (snd (fst (run World' respond' (signTypedData (account signer) typedData) w))))
        = Some (JObject [("data", JString (formatMessage hash))])
    | Err e =>
        run World' respond' (signTypedData (account signer) typedData) w = (Err e, [], w)
    end.
Proof.
  intros H Hv w.
  destruct (toWebAuthnSigner_Ok World respond _ _ _ _ _ _ H)
    as (key & chainId & _ & Hm & Htd & _).
  rewrite Htd, run_signTypedData, Hv.
  destruct (hashTypedData typedData) as [hash|e]; [|reflexivity].
  rewrite Hm. split; [reflexivity|].
  destruct (run World' respond' _ w) as [[out log] w'] eqn:Hrun.
  destruct (signMessage_first_request World' respond' _ _ (MString hash) hash _ _ _ _
              eq_refl Hrun) as (settled & rest & ->).
  reflexivity.
Qed.

(** X7. Construction fails in three ways only: the chain id lookup is
    rejected; or, no key having been given, the provisioning call is
    rejected; or it resolves to nothing, which gives
    [Error "WebAuthn public key not found"].  In the last two the chain id
    is never asked for. *)
Theorem construction_failure_modes client params w e log w' :
  run World respond (toWebAuthnSigner client params) w = (Err e, log, w') ->
  chainIdsOf log = [Err e] \/
  (chainIdsOf log = [] /\
   Params.pubKey params = None /\
   (provisionedOf log = [Err e] \/
    provisionedOf log = [Ok None] /\ e = Error "WebAuthn public key not found")).
Proof.
  unfold toWebAuthnSigner. cbv zeta. intros H.
  destruct (Params.pubKey params) as [key|] eqn:Hkey.
  - cbn [pbind] in H. rewrite run_await in H.
    destruct (respond _ _ w) as [[chainId|e0] w1]; [discriminate|].
    injection H as <- <- <-. left. reflexivity.
  - rewrite run_await in H.
    destruct (respond _ _ w) as [[[key|]|e0] w1].
    + rewrite run_await in H.
      destruct (respond _ _ w1) as [[chainId|e1] w2]; [discriminate|].
      injection H as <- <- <-. left. reflexivity.
    + cbn [run] in H. injection H as <- <- <-.
      right. split; [reflexivity|]. split; [reflexivity|]. right. split; reflexivity.
    + injection H as <- <- <-.
      right. split; [reflexivity|]. split; [reflexivity|]. left. reflexivity.
Qed.

(** X8. What a successful construction settles besides the key and the
    chain id: the signer contract is the one given, or
    [WEBAUTHN_SIGNER_CONTRACT]; the account address is the zero address; a
    key given by the caller is used without any provisioning call;
    otherwise provisioning is called once, with the passkey name, the
    server URL and the mode given, [Register] by default.  The chain id
    lookup is the only other call. *)
Theorem construction_defaults client params w signer log w' :
  run World respond (toWebAuthnSigner client params) w = (Ok signer, log, w') ->
  signerContractAddress signer
  = match Params.signerContractAddress params with
    | Some a => a
    | None => WEBAUTHN_SIGNER_CONTRACT
    end /\
  address (account signer) = "0x0000000000000000000000000000000000000000" /\
  provisioningOf log
  = match Params.pubKey params with
    | Some _ => []
    | None => [(Params.passkeyName params, Params.passkeyServerUrl params,
                match Params.mode params with Some m => m | None => Register end)]
    end /\
  List.length log = (List.length (provisioningOf log) + 1)%nat.
Proof.
  unfold toWebAuthnSigner. cbv zeta. intros H.
  destruct (Params.pubKey params) as [key|] eqn:Hkey.
  - cbn [pbind] in H. rewrite run_await in H.
    destruct (respond _ _ w) as [[chainId|] w1]; [|discriminate].
    cbn [run] in H. injection H as <- <- <-. repeat split.
  - rewrite run_await in H.
    destruct (respond _ _ w) as [[[key|]|] w1]; try discriminate.
    rewrite run_await in H.
    destruct (respond _ _ w1) as [[chainId|] w2]; [|discriminate].
    cbn [run] in H. injection H as <- <- <-. repeat split.
Qed.

(** X9. [signTransaction] is refused: whatever the transaction and the
    environment, it fails with [SignTransactionNotSupportedBySmartAccount]
    and makes no call. *)
Theorem signTransaction_unsupported client params w0 signer log0 w1 :
  run World respond (toWebAuthnSigner client params) w0 = (Ok signer, log0, w1) ->
  forall transaction options w,
    run World' respond' (signTransaction (account signer) transaction options) w
    = (Err SignTransactionNotSupportedBySmartAccount, [], w).
Proof.
  intros H transaction options w.
  destruct (toWebAuthnSigner_Ok World respond _ _ _ _ _ _ H)
    as (key & chainId & _ & _ & _ & Ht & _).
  now rewrite Ht.
Qed.

End Construction.

Section Data.

Context {utils : WebAuthnUtils} {ext : Collaborators}.
Variable World : Type.
Variable respond : forall X : Type, event X -> World -> result X * World.

Lemma length_0x_words (a b : string) :
  String.length a = 64%nat -> String.length b = 64%nat ->
  String.length (concat [String "0" (String "x" a); String "0" (String "x" b)]) = 130%nat.
Proof.
  intros Ha Hb. unfold concat. rewrite !concat_cons_word_tail.
  change (joined []) with EmptyString.
  cbn [append String.length]. rewrite !length_append, Ha, Hb. reflexivity.
Qed.

(** X10. [getSignerData] succeeds only for a key whose coordinates are
    uint256 values; its output is then 64 bytes ([0x] and 128 digits) and
    reads back as the key, so that different keys never share signer
    data. *)
Theorem getSignerData_round_trip (key : WebAuthnKey) (data : Hex) :
  getSignerDataOf (Some key) = Ok data ->
  (0 <= pubX key < 2 ^ 256 /\ 0 <= pubY key < 2 ^ 256) /\
  String.length data = 130%nat /\
  decodeSignerData data = Some key /\
  forall key', getSignerDataOf (Some key') = Ok data -> key' = key.
Proof.
  intros H.
  assert (R : forall k d, getSignerDataOf (Some k) = Ok d ->
              (0 <= pubX k < 2 ^ 256 /\ 0 <= pubY k < 2 ^ 256) /\
              String.length d = 130%nat /\ decodeSignerData d = Some k).
  { intros k d Hk. pose proof Hk as Hk'. rewrite getSignerDataOf_eq in Hk'.
    apply bind_Ok in Hk' as (x & Hx & Hk').
    apply bind_Ok in Hk' as (y & Hy & Hk').
    apply numberToHex_Ok in Hx as [Rx ->].
    apply numberToHex_Ok in Hy as [Ry ->].
    apply Ok_inj in Hk'.
    split; [split; assumption|]. split.
    - subst d. apply length_0x_words; apply length_toString16.
    - destruct (getSignerDataOf_in_range k Rx Ry) as (d' & Hd' & F0 & F1).
      assert (d' = d) by (rewrite Hk in Hd'; now apply Ok_inj in Hd').
      subst d'. unfold decodeSignerData. rewrite F0, F1. now destruct k. }
  destruct (R key data H) as (Hr & Hl & Hd).
  repeat (split; [assumption|]).
  intros key' H'. destruct (R key' data H') as (_ & _ & Hd').
  rewrite Hd in Hd'. now apply Some_inj in Hd'.
Qed.







End Data.

Section Size.

Context {utils : WebAuthnUtils} {ext : Collaborators}.
Variable World : Type.
Variable respond : forall X : Type, event X -> World -> result X * World.

Lemma wordsFor_spec (n : nat) :
  Z.of_nat (wordsFor n) = (Z.of_nat n + 31) / 32.
Proof.
  unfold wordsFor. rewrite Nat2Z.inj_div. f_equal. lia.
Qed.

Lemma length_encodeString (c : string) (pc : PreparedParam) :
  encodeString c = Ok pc ->
  String.length (encoded pc) = (2 + 64 + 64 * wordsFor (List.length (encode c)))%nat.
Proof.
  unfold encodeString, stringToHex.
  destruct (length_bytesToHex (encode c)) as (hx & -> & Hlen).
  set (n := List.length (encode c)) in *.
  rewrite (size_0x_even hx n Hlen).
  intros H.
  apply bind_Ok in H as (parts & Hparts & H).
  apply bind_Ok in H as (len & Hnum & H).
  apply numberToHex_Ok in Hnum as [Hr ->].
  change ("0x" ++ toString16 64 (Z.of_nat n))%string
    with (String "0" (String "x" (toString16 64 (Z.of_nat n)))) in H.
  rewrite padHex_left_word in H. cbn [Js.bind] in H.
  apply Ok_inj in H. subst pc. cbn [encoded].
  rewrite (mapM_map _ (fun i => String "0" (String "x"
                          (padEnd (String.substring (i * 64) 64 hx) 64)))) in Hparts
    by (intros; apply padHex_right_chunk).
  apply Ok_inj in Hparts. subst parts.
  unfold concat. rewrite joined_cons. cbn [replace_0x].
  assert (Hw : Z.to_nat ((Z.of_nat n + 31) / 32) = wordsFor n)
    by (rewrite <- wordsFor_spec; apply Nat2Z.id).
  rewrite Hw.
  assert (Hle : (String.length hx <= 64 * wordsFor n)%nat).
  { rewrite Hlen. pose proof (wordsFor_spec n) as Hwf.
    pose proof (Z.mod_pos_bound (Z.of_nat n + 31) 32 ltac:(lia)).
    pose proof (Z.div_mod (Z.of_nat n + 31) 32 ltac:(lia)). lia. }
  rewrite joined_chunks by exact Hle.
  cbn [append String.length].
  rewrite !length_append, length_toString16, length_zeros. lia.
Qed.

Lemma length_encodeBytes (d : string) (n : nat) (pa : PreparedParam) :
  String.length d = (2 * n)%nat ->
  encodeBytes (String "0" (String "x" d)) = Ok pa ->
  String.length (encoded pa) = (2 + 64 + 64 * wordsFor n)%nat.
Proof.
  intros Hlen. unfold encodeBytes.
  rewrite (size_0x_even d n Hlen). cbv zeta.
  intros H.
  apply bind_Ok in H as (value_ & Hvalue & H).
  apply bind_Ok in H as (len & Hnum & H).
  apply numberToHex_Ok in Hnum as [Hr ->].
  change ("0x" ++ toString16 64 (Z.of_nat n))%string
    with (String "0" (String "x" (toString16 64 (Z.of_nat n)))) in H.
  rewrite padHex_left_word in H. cbn [Js.bind] in H.
  apply Ok_inj in H. subst pa. cbn [encoded].
  unfold concat. rewrite !joined_cons. cbn [replace_0x].
  change (joined []) with EmptyString.
  pose proof (wordsFor_spec n) as Hwf.
  pose proof (Z.mod_pos_bound (Z.of_nat n + 31) 32 ltac:(lia)) as M1.
  pose proof (Z.div_mod (Z.of_nat n + 31) 32 ltac:(lia)) as M2.
  destruct (Z.eqb_spec (Z.rem (Z.of_nat n) 32) 0) as [Hrem|Hrem]; cbn [negb] in Hvalue.
  - apply Ok_inj in Hvalue. subst value_.
    change (replace_0x (String "0" (String "x" d))) with d.
    rewrite Z.rem_mod_nonneg in Hrem by lia.
    pose proof (Z.div_mod (Z.of_nat n) 32 ltac:(lia)) as M3.
    cbn [append String.length].
    rewrite !length_append, length_toString16, Hlen. cbn [String.length]. lia.
  - rewrite Z.rem_mod_nonneg in Hrem by lia.
    pose proof (Z.mod_pos_bound (Z.of_nat n) 32 ltac:(lia)) as M4.
    pose proof (Z.div_mod (Z.of_nat n) 32 ltac:(lia)) as M3.
    unfold padHex in Hvalue. cbv zeta in Hvalue.
    change (replace_0x (String "0" (String "x" d))) with d in Hvalue.
    cbn [String.length] in Hvalue.
    set (P := (Z.of_nat (S (S (String.length d))) - 2 + 63) / 64 * 32) in *.
    assert (HP : P * 2 = 64 * Z.of_nat (wordsFor n)).
    { subst P.
      replace (Z.of_nat (S (S (String.length d))) - 2 + 63)
        with (Z.of_nat (String.length d) + 63) by lia.
      rewrite Hlen.
      pose proof (Z.mod_pos_bound (Z.of_nat (2 * n) + 63) 64 ltac:(lia)).
      pose proof (Z.div_mod (Z.of_nat (2 * n) + 63) 64 ltac:(lia)).
      lia. }
    destruct (Z.gtb_spec (Z.of_nat (String.length d)) (P * 2)); [lia|].
    apply Ok_inj in Hvalue. subst value_.
    change (replace_0x (String "0" (String "x" (padEnd d (Z.to_nat (P * 2))))))
      with (padEnd d (Z.to_nat (P * 2))).
    unfold padEnd. cbn [replace_0x append String.length].
    rewrite !length_append, length_toString16, length_zeros. cbn [String.length]. lia.
Qed.


(** The size of an encoded signature tuple. *)
Lemma length_signature_tuple (d : string) (n : nat) (c : string) (cl tl r_ s_ : Z)
    (p : bool) (sig : Hex) :
  String.length d = (2 * n)%nat ->
  encodeAbiParameters signatureParams
    [VHex (String "0" (String "x" d)); VString c;
     VBigInt cl; VBigInt tl; VBigInt r_; VBigInt s_; VBoolean p] = Ok sig ->
  String.length sig = (2 + 64 * (9 + wordsFor n + wordsFor (List.length (encode c))))%nat.
Proof.
  intros Hd H.
  unfold encodeAbiParameters in H.
  cbn [List.length Nat.eqb negb signatureParams prepareParams prepareParam type] in H.
  apply bind_Ok in H as (xs & Hxs & H).
  apply bind_Ok in Hxs as (pa & Hpa & Hxs).
  apply bind_Ok in Hxs as (xs1 & Hxs1 & Hxs). apply Ok_inj in Hxs. subst xs.
  apply bind_Ok in Hxs1 as (pc & Hpc & Hxs1).
  apply bind_Ok in Hxs1 as (xs2 & Hxs2 & Hxs1). apply Ok_inj in Hxs1. subst xs1.
  apply bind_Ok in Hxs2 as (w2 & Hw2 & Hxs2).
  apply bind_Ok in Hxs2 as (xs3 & Hxs3 & Hxs2). apply Ok_inj in Hxs2. subst xs2.
  apply bind_Ok in Hxs3 as (w3 & Hw3 & Hxs3).
  apply bind_Ok in Hxs3 as (xs4 & Hxs4 & Hxs3). apply Ok_inj in Hxs3. subst xs3.
  apply bind_Ok in Hxs4 as (w4 & Hw4 & Hxs4).
  apply bind_Ok in Hxs4 as (xs5 & Hxs5 & Hxs4). apply Ok_inj in Hxs4. subst xs4.
  apply bind_Ok in Hxs5 as (w5 & Hw5 & Hxs5).
  apply bind_Ok in Hxs5 as (xs6 & Hxs6 & Hxs5). apply Ok_inj in Hxs5. subst xs5.
  apply bind_Ok in Hxs6 as (w6 & Hw6 & Hxs6).
  apply bind_Ok in Hxs6 as (xs7 & Hxs7 & Hxs6). apply Ok_inj in Hxs6. subst xs6.
  apply Ok_inj in Hxs7. subst xs7.
  apply encodeNumber_Ok in Hw2 as [_ ->].
  apply encodeNumber_Ok in Hw3 as [_ ->].
  apply encodeNumber_Ok in Hw4 as [_ ->].
  apply encodeNumber_Ok in Hw5 as [_ ->].
  rewrite encodeBool_eq in Hw6. apply Ok_inj in Hw6. subst w6.
  pose proof (encodeBytes_dynamic _ _ Hpa) as Hda.
  pose proof (encodeString_dynamic _ _ Hpc) as Hdc.
  pose proof (length_encodeBytes _ _ _ Hd Hpa) as La.
  pose proof (length_encodeString _ _ Hpc) as Lc.
  destruct (encodeBytes_layout _ _ _ Hd Hpa) as (z & k & _ & _ & Ea).
  destruct (encodeString_layout _ _ Hpc) as (hx & n' & z' & _ & _ & _ & Ec).
  destruct pa as [da ea], pc as [dc ec]. cbn [dynamic encoded] in *. subst da dc.
  unfold encodeParams in H.
  apply bind_Ok in H as ([heads tails] & Hsplit & H). apply Ok_inj in H. subst sig.
  cbn [splitParams dynamic encoded] in Hsplit.
  apply bind_Ok in Hsplit as (off0 & Hoff0 & Hsplit).
  apply bind_Ok in Hsplit as ([heads1 tails1] & Hsplit1 & Hsplit).
  apply Ok_inj in Hsplit. apply pair_inj in Hsplit as [<- <-].
  apply bind_Ok in Hsplit1 as (off1 & Hoff1 & Hsplit1).
  apply Ok_inj in Hsplit1. apply pair_inj in Hsplit1 as [<- <-].
  apply numberToHex_Ok in Hoff0 as [_ ->].
  apply numberToHex_Ok in Hoff1 as [_ ->].
  cbn [app].
  repeat match goal with
         | |- context [append "0x" ?x] =>
             change (append "0x" x) with (String "0" (String "x" x))
         end.
  rewrite Ea, Ec in *.
  unfold concat. rewrite !concat_cons_word_tail. change (joined []) with EmptyString.
  cbn [String.length] in *.
  rewrite !length_append, !length_toString16 in *. cbn [String.length].
  lia.
Qed.


Lemma length_getDummySignatureOf (chainId : Z) :
  exists dummy, getDummySignatureOf chainId = Ok dummy /\ String.length dummy = 962%nat.
Proof.
  unfold getDummySignatureOf.
  destruct (isRIP7212SupportedNetwork chainId);
    (eexists; split; [vm_compute; reflexivity | vm_compute; reflexivity]).
Qed.

(** X13. A signature is [0x] and a whole number of 32-byte words: nine,
    plus the words that hold the authenticator data, plus the words that
    hold the UTF-8 bytes of the client data JSON.  Its size does not
    depend on the message, the offsets, [r], [s] or the chain. *)
Theorem signature_size url chainId message w sig log w' :
  run World respond (signMessageUsingWebAuthn url chainId message) w = (Ok sig, log, w') ->
  exists cred verifyResult authenticatorData_ authenticatorDataBytes clientDataJSON_,
    assertionOf log = Some cred /\
    verificationOf log = Some verifyResult /\
    getProp verifyResult "authenticatorData" = Ok authenticatorData_ /\
    b64ToBytes authenticatorData_ = Ok authenticatorDataBytes /\
    atob (clientDataJSON (response cred)) = Ok clientDataJSON_ /\
    forall digits n,
      uint8ArrayToHexString authenticatorDataBytes = ("0x" ++ digits)%string ->
      String.length digits = (2 * n)%nat ->
      String.length sig
      = (2 + 64 * (9 + wordsFor n + wordsFor (List.length (encode clientDataJSON_))))%nat.
Proof.
  intros H.
  destruct (signMessage_Ok_built World respond _ _ _ _ _ _ _ H) as (cred & v & Ha & Hv & He).
  destruct (encodeVerified_Ok _ _ _ _ He)
    as (ad & adb & cdj & q & sg & sgb & rs & Had & Hadb & Hcdj & Hq & Hsg & Hsgb & Hrs & Henc).
  exists cred, v, ad, adb, cdj. repeat (split; [assumption|]).
  intros digits n Hhex Hlen. rewrite Hhex in Henc.
  exact (length_signature_tuple _ _ _ _ _ _ _ _ _ Hlen Henc).
Qed.

(** X14. The dummy signature has the size of a real one: a signature over
    37 bytes of authenticator data and a client data JSON of 97 to 128
    bytes is exactly as long as the dummy signature, 480 bytes. *)
Theorem dummy_signature_has_real_size url chainId chainId' message w sig log w' dummy :
  run World respond (signMessageUsingWebAuthn url chainId message) w = (Ok sig, log, w') ->
  getDummySignatureOf chainId' = Ok dummy ->
  exists cred verifyResult authenticatorData_ authenticatorDataBytes clientDataJSON_,
    assertionOf log = Some cred /\
    verificationOf log = Some verifyResult /\
    getProp verifyResult "authenticatorData" = Ok authenticatorData_ /\
    b64ToBytes authenticatorData_ = Ok authenticatorDataBytes /\
    atob (clientDataJSON (response cred)) = Ok clientDataJSON_ /\
    forall digits,
      uint8ArrayToHexString authenticatorDataBytes = ("0x" ++ digits)%string ->
      String.length digits = (2 * 37)%nat ->
      (97 <= List.length (encode clientDataJSON_) <= 128)%nat ->
      String.length sig = String.length dummy /\
      String.length dummy = (2 + 2 * 480)%nat.
Proof.
  intros H Hd.
  destruct (signMessage_Ok_built World respond _ _ _ _ _ _ _ H) as (cred & v & Ha & Hv & He).
  destruct (encodeVerified_Ok _ _ _ _ He)
    as (ad & adb & cdj & q & sg & sgb & rs & Had & Hadb & Hcdj & Hq & Hsg & Hsgb & Hrs & Henc).
  exists cred, v, ad, adb, cdj. repeat (split; [assumption|]).
  intros digits Hhex Hlen Hm. rewrite Hhex in Henc.
  rewrite (length_signature_tuple _ _ _ _ _ _ _ _ _ Hlen Henc).
  destruct (length_getDummySignatureOf chainId') as (dummy' & Hd' & L).
  assert (dummy' = dummy) by (rewrite Hd in Hd'; now apply Ok_inj in Hd').
  subst dummy'. rewrite L.
  assert (W : wordsFor (List.length (encode cdj)) = 4%nat).
  { unfold wordsFor.
    pose proof (Nat.div_mod_eq (List.length (encode cdj) + 31) 32).
    pose proof (Nat.mod_upper_bound (List.length (encode cdj) + 31) 32 ltac:(lia)).
    lia. }
  rewrite W. split; reflexivity.
Qed.

End Size.

Section Order.

Context {utils : WebAuthnUtils} {ext : Collaborators}.
Variable World : Type.
Variable respond : forall X : Type, event X -> World -> result X * World.

(** X15. The options shown to the authenticator carry the [challenge] and
    the [allowCredentials] of the parsed [sign-initiate] reply, unchanged,
    whatever the HTTP status of that reply was. *)
Theorem prompt_options_from_initiate_reply url chainId message w out log w' options settled :
  run World respond (signMessageUsingWebAuthn url chainId message) w = (out, log, w') ->
  In (options, settled) (promptsOf log) ->
  exists reply,
    initiationOf log = Some reply /\
    getProp reply "challenge" = Ok (challenge options) /\
    getProp reply "allowCredentials" = Ok (allowCredentials options).
Proof.
  intros H Hin. rewrite run_signMessage in H.
  run_cases H; injection H as <- <- <-.
  all: cbv [promptsOf flat_map promptOfCall app In] in Hin.
  all: try (destruct Hin; fail).
  all: destruct Hin as [Hin | []]; apply pair_inj in Hin; destruct Hin as [<- _].
  all: cbv [initiationOf jsonOfCall].
  all: match goal with
       | E : json ?r = Ok ?v |- _ => rewrite E; exists v
       end; auto.
Qed.

(** X16. The calls of a run are an initial part of the sequence request,
    prompt, request: there are at most three, the authenticator is never
    prompted before a request was answered, and nothing follows the second
    request.  A run that returns a signature made all three. *)
Theorem calls_in_protocol_order url chainId message w out log w' :
  run World respond (signMessageUsingWebAuthn url chainId message) w = (out, log, w') ->
  exists n : nat,
    (n <= 3)%nat /\
    List.map isFetch log = firstn n [true; false; true] /\
    List.map isStartAuthentication log = firstn n [false; true; false] /\
    (forall sig, out = Ok sig -> n = 3%nat).
Proof.
  intros H. rewrite run_signMessage in H.
  run_cases H; injection H as <- <- <-.
  all: first
    [ exists 3%nat; split; [lia|]; split; [reflexivity|]; split; [reflexivity|]; reflexivity
    | exists 0%nat; split; [lia|]; split; [reflexivity|]; split; [reflexivity|];
      intros sig E; discriminate E
    | exists 1%nat; split; [lia|]; split; [reflexivity|]; split; [reflexivity|];
      intros sig E; discriminate E
    | exists 2%nat; split; [lia|]; split; [reflexivity|]; split; [reflexivity|];
      intros sig E; discriminate E
    | exists 3%nat; split; [lia|]; split; [reflexivity|]; split; [reflexivity|];
      intros sig E; discriminate E ].
Qed.

End Order.


(* ===================================================================== *)
(** ** The further properties on the reference environment *)
(* ===================================================================== *)

Module OnScenarios.
Import Demo Scenarios.

Lemma signMessage_requests_witness :
  exists out log w' cred,
    messageContentOf (MString "0x48656c6c6f") = Ok "0x48656c6c6f" /\
    run Script respond (signMessageUsingWebAuthn url 1 (MString "0x48656c6c6f")) happy
    = (out, log, w') /\
    assertionOf log = Some cred /\
    List.map fst (requestsOf log)
    = ["https://passkeys.example/sign-initiate"; "https://passkeys.example/sign-verify"].
Proof.
  eassert (H : run Script respond (signMessageUsingWebAuthn url 1 (MString "0x48656c6c6f")) happy
               = (_, _, _)) by (vm_compute; reflexivity).
  destruct (signMessage_requests Script respond url 1 (MString "0x48656c6c6f") "0x48656c6c6f"
              _ _ _ _ eq_refl H) as [[Hn _] | (cred & Ha & Hr)].
  - vm_compute in Hn. discriminate Hn.
  - eexists _, _, _, cred. split; [reflexivity|]. split; [exact H|]. split; [exact Ha|].
    rewrite Hr. reflexivity.
Defined.

Lemma authenticator_prompted_at_most_once_witness :
  exists out log w' options e,
    run Script respond (signMessageUsingWebAuthn url 1 (MString "0x48656c6c6f")) cancelled
    = (out, log, w') /\
    promptsOf log = [(options, Err e)] /\
    userVerification options = "required" /\
    out = Err e /\
    List.length (requestsOf log) = 1%nat.
Proof.
  eassert (H : run Script respond (signMessageUsingWebAuthn url 1 (MString "0x48656c6c6f"))
                   cancelled = (_, _, _)) by (vm_compute; reflexivity).
  destruct (authenticator_prompted_at_most_once Script respond _ _ _ _ _ _ _ H)
    as [Hn | (options & settled & Hp & Hu & Hm)].
  - vm_compute in Hn. discriminate Hn.
  - destruct settled as [cred|e].
    + vm_compute in Hp. discriminate Hp.
    + destruct Hm as [Hout Hlen].
      eexists _, _, _, options, e. split; [exact H|]. auto.
Defined.


Lemma signature_requires_server_approval_witness :
  exists sig log w' verifyResult success,
    run Script respond (signMessageUsingWebAuthn url 1 (MString "0x48656c6c6f")) happy
    = (Ok sig, log, w') /\
    verificationOf log = Some verifyResult /\
    getProp verifyResult "success" = Ok success /\
    truthy success = true.
Proof.
  eassert (H : run Script respond (signMessageUsingWebAuthn url 1 (MString "0x48656c6c6f")) happy
               = (Ok _, _, _)) by (vm_compute; reflexivity).
  destruct (signature_requires_server_approval Script respond _ _ _ _ _ _ _ H)
    as (v & s & Hv & Hs & Ht).
  eexists _, _, _, v, s. split; [exact H|]. auto.
Defined.

Lemma falsy_success_is_refusal_witness :
  exists out log w' verifyResult,
    run Script respond (signMessageUsingWebAuthn url 1 (MString "0x48656c6c6f")) noSuccessField
    = (out, log, w') /\
    verificationOf log = Some verifyResult /\
    getProp verifyResult "success" = Ok JUndefined /\
    truthy JUndefined = false /\
    out = Err (Error "Signature not verified").
Proof.
  eassert (H : run Script respond (signMessageUsingWebAuthn url 1 (MString "0x48656c6c6f"))
                   noSuccessField = (_, _, _)) by (vm_compute; reflexivity).
  eexists _, _, _, _. split; [exact H|]. split; [reflexivity|]. split; [reflexivity|].
  split; [reflexivity|].
  exact (falsy_success_is_refusal Script respond _ _ _ _ _ _ _ _ JUndefined
           H eq_refl eq_refl eq_refl).
Defined.

Lemma signTypedData_is_signMessage_of_hash_witness :
  exists signer log0 w1 hash,
    run Script respond (toWebAuthnSigner demoClient demoParams) happy = (Ok signer, log0, w1) /\
    validateTypedData
      {| v_domain := domain demoTypedData;
         v_message := message demoTypedData;
         v_primaryType := primaryType demoTypedData;
         v_types := spread [("EIP712Domain", getTypesForEIP712Domain (domain demoTypedData))]
                           (types demoTypedData) |} = Ok tt /\
    hashTypedData demoTypedData = Ok hash /\
    run Script respond (signTypedData (account signer) demoTypedData) w1
    = run Script respond (signMessage (account signer) (MString hash)) w1.
Proof.
  eassert (H : run Script respond (toWebAuthnSigner demoClient demoParams) happy = (Ok _, _, _))
    by reflexivity.
  eexists _, _, _, _. split; [exact H|]. split; [reflexivity|]. split; [reflexivity|].
  exact (proj1 (signTypedData_is_signMessage_of_hash Script respond Script respond
                  _ _ _ _ _ _ demoTypedData tt H eq_refl _)).
Defined.

Lemma construction_failure_modes_witness :
  exists e log w',
    run Script respond (toWebAuthnSigner demoClient demoParams) unprovisioned = (Err e, log, w') /\
    chainIdsOf log = [] /\
    provisionedOf log = [Ok None] /\
    e = Error "WebAuthn public key not found".
Proof.
  eassert (H : run Script respond (toWebAuthnSigner demoClient demoParams) unprovisioned
               = (Err _, _, _)) by reflexivity.
  destruct (construction_failure_modes Script respond _ _ _ _ _ _ H)
    as [Hc | (Hc & _ & [Hp | [Hp He]])].
  - vm_compute in Hc. discriminate Hc.
  - vm_compute in Hp. discriminate Hp.
  - eexists _, _, _. split; [exact H|]. auto.
Defined.

Lemma construction_defaults_witness :
  exists signer log w',
    run Script respond (toWebAuthnSigner demoClient customParams) happy = (Ok signer, log, w') /\
    signerContractAddress signer = "0x1111111111111111111111111111111111111111" /\
    address (account signer) = "0x0000000000000000000000000000000000000000" /\
    provisioningOf log = [("demo", "https://passkeys.example", Login)] /\
    List.length log = 2%nat.
Proof.
  eassert (H : run Script respond (toWebAuthnSigner demoClient customParams) happy = (Ok _, _, _))
    by reflexivity.
  destruct (construction_defaults Script respond _ _ _ _ _ _ H) as (F1 & F2 & F3 & F4).
  eexists _, _, _. split; [exact H|]. split; [exact F1|]. split; [exact F2|].
  split; [exact F3|]. rewrite F4, F3. reflexivity.
Defined.

Lemma signTransaction_unsupported_witness :
  exists signer log0 w1,
    run Script respond (toWebAuthnSigner demoClient demoParams) happy = (Ok signer, log0, w1) /\
    run Script respond (signTransaction (account signer) (JObject []) JUndefined) w1
    = (Err SignTransactionNotSupportedBySmartAccount, [], w1).
Proof.
  eassert (H : run Script respond (toWebAuthnSigner demoClient demoParams) happy = (Ok _, _, _))
    by reflexivity.
  eexists _, _, _. split; [exact H|].
  exact (signTransaction_unsupported Script respond Script respond _ _ _ _ _ _ H _ _ _).
Defined.

Lemma getSignerData_round_trip_witness :
  exists data,
    getSignerDataOf (Some demoKey) = Ok data /\
    String.length data = 130%nat /\
    decodeSignerData data = Some demoKey.
Proof.
  eassert (H : getSignerDataOf (Some demoKey) = Ok _) by (vm_compute; reflexivity).
  destruct (getSignerData_round_trip _ _ H) as (_ & Hl & Hd & _).
  eexists. split; [exact H|]. auto.
Defined.


Lemma signature_size_witness :
  exists sig log w',
    run Script respond (signMessageUsingWebAuthn url 1 (MString "0x48656c6c6f")) happy
    = (Ok sig, log, w') /\
    String.length sig = (2 + 64 * (9 + 2 + 3))%nat.
Proof.
  eassert (H : run Script respond (signMessageUsingWebAuthn url 1 (MString "0x48656c6c6f")) happy
               = (Ok _, _, _)) by (vm_compute; reflexivity).
  destruct (signature_size Script respond _ _ _ _ _ _ _ H)
    as (cred & v & ad & adb & cdj & Ha & Hv & Had & Hadb & Hcdj & F).
  vm_compute in Ha. apply Some_inj in Ha. subst cred.
  vm_compute in Hv. apply Some_inj in Hv. subst v.
  vm_compute in Had. apply Ok_inj in Had. subst ad.
  vm_compute in Hadb. apply Ok_inj in Hadb. subst adb.
  vm_compute in Hcdj. apply Ok_inj in Hcdj. subst cdj.
  eexists _, _, _. split; [exact H|].
  exact (F "0102030405060708090a0b0c0d0e0f101112131415161718191a1b1c1d1e1f202122232425"
           37%nat eq_refl eq_refl).
Defined.

Lemma dummy_signature_has_real_size_witness :
  exists sig log w' dummy,
    run Script respond (signMessageUsingWebAuthn url 1 (MString "0x48656c6c6f")) typical
    = (Ok sig, log, w') /\
    getDummySignatureOf 80001 = Ok dummy /\
    String.length sig = String.length dummy.
Proof.
  eassert (H : run Script respond (signMessageUsingWebAuthn url 1 (MString "0x48656c6c6f"))
                   typical = (Ok _, _, _)) by (vm_compute; reflexivity).
  eassert (Hd : getDummySignatureOf 80001 = Ok _) by (vm_compute; reflexivity).
  destruct (dummy_signature_has_real_size Script respond _ _ _ _ _ _ _ _ _ H Hd)
    as (cred & v & ad & adb & cdj & Ha & Hv & Had & Hadb & Hcdj & F).
  vm_compute in Ha. apply Some_inj in Ha. subst cred.
  vm_compute in Hv. apply Some_inj in Hv. subst v.
  vm_compute in Had. apply Ok_inj in Had. subst ad.
  vm_compute in Hadb. apply Ok_inj in Hadb. subst adb.
  vm_compute in Hcdj. apply Ok_inj in Hcdj. subst cdj.
  eexists _, _, _, _. split; [exact H|]. split; [exact Hd|].
  refine (proj1 (F "0102030405060708090a0b0c0d0e0f101112131415161718191a1b1c1d1e1f202122232425"
                   eq_refl eq_refl _)).
  vm_compute. split; lia.
Defined.

Lemma prompt_options_from_initiate_reply_witness :
  exists out log w' options,
    run Script respond (signMessageUsingWebAuthn url 1 (MString "0x48656c6c6f")) initiateFails
    = (out, log, w') /\
    In (options, Ok demoCred) (promptsOf log) /\
    initiationOf log = Some (JObject [("error", JString "internal error")]) /\
    challenge options = JUndefined.
Proof.
  eassert (H : run Script respond (signMessageUsingWebAuthn url 1 (MString "0x48656c6c6f"))
                   initiateFails = (_, _, _)) by (vm_compute; reflexivity).
  match type of H with
  | _ = (_, ?l, _) =>
      eassert (Hin : In (_, Ok demoCred) (promptsOf l)) by (left; reflexivity)
  end.
  destruct (prompt_options_from_initiate_reply Script respond _ _ _ _ _ _ _ _ _ H Hin)
    as (reply & Hr & Hc & _).
  vm_compute in Hr. apply Some_inj in Hr. subst reply.
  eexists _, _, _, _. split; [exact H|]. split; [exact Hin|]. split; [reflexivity|].
  vm_compute in Hc. apply Ok_inj in Hc. symmetry. exact Hc.
Defined.

Lemma calls_in_protocol_order_witness :
  exists sig log w',
    run Script respond (signMessageUsingWebAuthn url 1 (MString "0x48656c6c6f")) happy
    = (Ok sig, log, w') /\
    List.map isFetch log = [true; false; true] /\
    List.map isStartAuthentication log = [false; true; false].
Proof.
  eassert (H : run Script respond (signMessageUsingWebAuthn url 1 (MString "0x48656c6c6f")) happy
               = (Ok _, _, _)) by (vm_compute; reflexivity).
  destruct (calls_in_protocol_order Script respond _ _ _ _ _ _ _ H) as (n & _ & Hf & Hs & Hn).
  rewrite (Hn _ eq_refl) in Hf, Hs.
  eexists _, _, _. split; [exact H|]. split; [exact Hf | exact Hs].
Defined.


End OnScenarios.
